(** * MintroAI backend: the Chain Signatures funding endpoints

    A shallow embedding of the three funding routes of the server
    ([POST /api/fund-address], [GET /api/check-balance] and
    [GET /api/funding-status]) together with the properties of the
    funding pipeline.

    The handlers are [async] functions that talk to a remote ledger through
    the ethers library.  They are embedded in a small monad that threads
    the trace of outbound calls and carries JavaScript exceptions; the
    ethers library and the remote ledger are an interface ([Ethers]) the
    handlers are parameterised by.  [console.log] / [console.error] lines
    are not part of the model. *)

From Stdlib Require Import ZArith List String Ascii Bool Lia DecimalString.
Import ListNotations.

Open Scope string_scope.
Open Scope list_scope.
Open Scope Z_scope.

(** ** JavaScript values that reach a response or an event *)

#[local] Set Warnings "-register-all".

Inductive Json : Type :=
| JUndefined
| JBool (b : bool)
| JNum (n : Z)
| JStr (s : string)
| JObj (fields : list (string * Json)).

(** [res.status(code).json(body)] *)
Record Response : Type := mkResponse {
  status : Z;
  body : list (string * Json)
}.

(** A thrown error object: the handlers read [error.code] and
    [error.message]. *)
Record JsError : Type := mkError {
  code : option string;
  message : string
}.

(** Own-property read of an object literal, [o[k]]. *)
Fixpoint get_field {A : Type} (o : list (string * A)) (k : string) : option A :=
  match o with
  | [] => None
  | (k', v) :: rest => if String.eqb k k' then Some v else get_field rest k
  end.

(** Property write, [o[k] = v]: replaces the value of an existing key and
    appends a new key otherwise. *)
Fixpoint set_field {A : Type} (o : list (string * A)) (k : string) (v : A)
  : list (string * A) :=
  match o with
  | [] => [(k, v)]
  | (k', v') :: rest =>
      if String.eqb k k' then (k', v) :: rest else (k', v') :: set_field rest k v
  end.

(** A string interpolated in a template literal; [undefined] prints as
    its name. *)
Definition interpolate (s : option string) : string :=
  match s with
  | Some s => s
  | None => "undefined"
  end.

Definition json_of (s : option string) : Json :=
  match s with
  | Some s => JStr s
  | None => JUndefined
  end.

(** [!s] for a string: only the empty string is falsy. *)
Definition falsy (s : string) : bool := String.eqb s "".

(** A value that may be [undefined] passes an [if (!x)] guard when it is
    defined and not empty. *)
Definition truthy (x : option string) : bool :=
  match x with
  | Some s => negb (falsy s)
  | None => false
  end.

(** ** The network registry *)

Record NetworkConfig : Type := mkConfig {
  rpcUrl : string;
  fundingAmount : string;
  name : string
}.

(** [NETWORK_CONFIGS] as the source declares it. *)
Definition NETWORK_CONFIGS : list (string * NetworkConfig) :=
  [ ("97", {| rpcUrl := "https://data-seed-prebsc-1-s1.binance.org:8545";
              fundingAmount := "0.0025";
              name := "BSC Testnet" |});
    ("1313161555", {| rpcUrl := "https://testnet.aurora.dev";
                      fundingAmount := "0.0025";
                      name := "Aurora Testnet" |}) ].

(** The registry is a plain object literal, so [NETWORK_CONFIGS[chainId]]
    also finds the members every object inherits from [Object.prototype]. *)
Definition Object_prototype : list string :=
  [ "constructor"; "__defineGetter__"; "__defineSetter__"; "hasOwnProperty";
    "__lookupGetter__"; "__lookupSetter__"; "isPrototypeOf";
    "propertyIsEnumerable"; "toString"; "valueOf"; "__proto__";
    "toLocaleString" ].

(** What [NETWORK_CONFIGS[chainId]] evaluates to when it is not
    [undefined]: a configuration of the registry, or an inherited member. *)
Inductive ConfigValue : Type :=
| OwnConfig (c : NetworkConfig)
| Inherited (member : string).

Definition inherited (k : string) : bool :=
  existsb (String.eqb k) Object_prototype.

(** [registry[chainId]]; [None] is [undefined], the only falsy result. *)
Definition get_config (registry : list (string * NetworkConfig)) (chainId : string)
  : option ConfigValue :=
  match get_field registry chainId with
  | Some c => Some (OwnConfig c)
  | None => if inherited chainId then Some (Inherited chainId) else None
  end.

(** [networkConfig.rpcUrl], [networkConfig.fundingAmount] and
    [networkConfig.name].  The inherited members carry neither of the first
    two; the inherited functions have a [name] of their own. *)
Definition rpcUrl_of (v : ConfigValue) : option string :=
  match v with
  | OwnConfig c => Some (rpcUrl c)
  | Inherited _ => None
  end.

Definition fundingAmount_of (v : ConfigValue) : option string :=
  match v with
  | OwnConfig c => Some (fundingAmount c)
  | Inherited _ => None
  end.

Definition name_of (v : ConfigValue) : option string :=
  match v with
  | OwnConfig c => Some (name c)
  | Inherited m =>
      if String.eqb m "__proto__" then None
      else if String.eqb m "constructor" then Some "Object"
      else Some m
  end.

(** ** Outbound calls and the effect monad *)

(** The calls a handler makes that leave the process: the three ledger
    operations (with the endpoint of the provider they go through;
    [None] is a provider built from an [undefined] url) and the
    publication of an event to the connected observers. *)
Inductive Event : Type :=
| LedgerGetBalance (url : option string) (address : string)
| LedgerSendTransaction (url : option string) (from to : string) (value : Z)
| LedgerWait (txHash : string) (confirms : Z)
| Broadcast (data : list (string * Json)).

Definition Trace : Type := list Event.

Inductive Result (A : Type) : Type :=
| Ok (a : A)
| Throw (e : JsError).

Arguments Ok {A} a.
Arguments Throw {A} e.

(** A computation runs after the calls made so far, and returns a value or
    throws, with the calls extended by its own. *)
Definition Eff (A : Type) : Type := Trace -> Result A * Trace.

Definition ret {A : Type} (a : A) : Eff A := fun tr => (Ok a, tr).

Definition bind {A B : Type} (m : Eff A) (k : A -> Eff B) : Eff B :=
  fun tr =>
    match m tr with
    | (Ok a, tr') => k a tr'
    | (Throw e, tr') => (Throw e, tr')
    end.

(** [try { m } catch (error) { h error }] *)
Definition try_catch {A : Type} (m : Eff A) (h : JsError -> Eff A) : Eff A :=
  fun tr =>
    match m tr with
    | (Ok a, tr') => (Ok a, tr')
    | (Throw e, tr') => h e tr'
    end.

(** A library call that stays in the process. *)
Definition pure_call {A : Type} (r : Result A) : Eff A := fun tr => (r, tr).

(** An outbound call: it is recorded whether it returns or throws, and its
    outcome may depend on everything that was sent before. *)
Definition outbound {A : Type} (ev : Event) (answer : Trace -> Result A) : Eff A :=
  fun tr => (answer tr, tr ++ [ev]).

Declare Scope eff_scope.
Delimit Scope eff_scope with eff.
Notation "x <- m ;; k" := (bind m (fun x => k))
  (at level 61, m at next level, right associativity) : eff_scope.
Notation "m ;; k" := (bind m (fun _ => k))
  (at level 61, right associativity) : eff_scope.
Open Scope eff_scope.

(** ** The ethers library and the remote ledger *)

Record TransactionResponse : Type := mkTx { hash : string }.
Record TransactionReceipt : Type := mkReceipt { blockNumber : Z }.

(** What the handlers use of ethers.  [Wallet key] is
    [new ethers.Wallet(key, ...).address], which throws on a malformed key.
    Balances are wei quantities, amounts are BigInts.  The three ledger
    operations answer after the calls that were already made. *)
Record Ethers : Type := mkEthers {
  isAddress : string -> bool;
  parseEther : option string -> Result Z;
  formatEther : Z -> string;
  Wallet : string -> Result string;
  getBalance : Trace -> option string -> string -> Result N;
  sendTransaction : Trace -> option string -> string -> string -> Z
                    -> Result TransactionResponse;
  wait : Trace -> TransactionResponse -> Z -> Result TransactionReceipt
}.

(** The parameters of a request, [req.body] or [req.query]: each is a
    string, as the handlers document them, or is missing. *)
Record Request : Type := mkRequest {
  req_address : option string;
  req_chainId : option string
}.

Section Handlers.

Variable E : Ethers.
Variable registry : list (string * NetworkConfig).
(** [process.env.NEXT_PUBLIC_FUNDER_PRIVATE_KEY] *)
Variable FUNDER_PRIVATE_KEY : option string.

Definition provider_getBalance (url : option string) (address : string) : Eff N :=
  outbound (LedgerGetBalance url address) (fun tr => getBalance E tr url address).

Definition wallet_sendTransaction (url : option string) (from to : string) (value : Z)
  : Eff TransactionResponse :=
  outbound (LedgerSendTransaction url from to value)
           (fun tr => sendTransaction E tr url from to value).

Definition tx_wait (tx : TransactionResponse) (confirms : Z) : Eff TransactionReceipt :=
  outbound (LedgerWait (hash tx) confirms) (fun tr => wait E tr tx confirms).

Definition broadcast (data : list (string * Json)) : Eff unit :=
  fun tr => (Ok tt, tr ++ [Broadcast data]).

Definition json (code : Z) (fields : list (string * Json)) : Eff Response :=
  ret (mkResponse code fields).

Definition missing_parameters : Response :=
  mkResponse 400 [("error", JStr "Missing required parameters: address and chainId")].

Definition unsupported_chain (chainId : string) : Response :=
  mkResponse 400 [("error", JStr ("Unsupported chain ID: " ++ chainId))].

(** *** POST /api/fund-address *)

(** The part of the [try] block that follows the check of the private
    key. *)
Definition fund_transfer (address chainId : string) (networkConfig : ConfigValue)
           (funderPrivateKey : string) : Eff Response :=
  let url := rpcUrl_of networkConfig in
  funder <- pure_call (Wallet E funderPrivateKey) ;;
  funderBalance <- provider_getBalance url funder ;;
  fundingAmount <- pure_call (parseEther E (fundingAmount_of networkConfig)) ;;
  if Z.of_N funderBalance <? fundingAmount then
    json 500 [("error",
               JStr "Funding service temporarily unavailable. Insufficient balance.")]
  else
    addressBalance <- provider_getBalance url address ;;
    let minimumBalance := Z.quot fundingAmount 2 in
    if Z.of_N addressBalance >=? minimumBalance then
      json 200 [("success", JBool true);
                ("message", JStr "Address already has sufficient balance");
                ("balance", JStr (formatEther E (Z.of_N addressBalance)));
                ("funded", JBool false)]
    else
      tx <- wallet_sendTransaction url funder address fundingAmount ;;
      receipt <- tx_wait tx 1 ;;
      broadcast [("type", JStr "addressFunded");
                 ("address", JStr address);
                 ("chainId", JStr chainId);
                 ("amount", json_of (fundingAmount_of networkConfig));
                 ("txHash", JStr (hash tx))] ;;
      json 200 [("success", JBool true);
                ("message",
                 JStr ("Successfully funded " ++ address ++ " with "
                       ++ interpolate (fundingAmount_of networkConfig) ++ " on "
                       ++ interpolate (name_of networkConfig)));
                ("txHash", JStr (hash tx));
                ("blockNumber", JNum (blockNumber receipt));
                ("funded", JBool true)].

Definition fund_address_try (req : Request) : Eff Response :=
  match req_address req, req_chainId req with
  | Some address, Some chainId =>
      if falsy address || falsy chainId then ret missing_parameters
      else if negb (isAddress E address) then
        json 400 [("error", JStr "Invalid Ethereum address")]
      else
        match get_config registry chainId with
        | None => ret (unsupported_chain chainId)
        | Some networkConfig =>
            match FUNDER_PRIVATE_KEY with
            | Some funderPrivateKey =>
                if falsy funderPrivateKey then
                  json 500 [("error",
                    JStr "Funding service not configured. Please contact administrator.")]
                else fund_transfer address chainId networkConfig funderPrivateKey
            | None =>
                json 500 [("error",
                  JStr "Funding service not configured. Please contact administrator.")]
            end
        end
  | _, _ => ret missing_parameters
  end.

Definition code_is (error : JsError) (c : string) : bool :=
  match code error with
  | Some c' => String.eqb c' c
  | None => false
  end.

Definition fund_address_catch (error : JsError) : Eff Response :=
  if code_is error "INSUFFICIENT_FUNDS" then
    json 500 [("error", JStr "Funder wallet has insufficient balance")]
  else if code_is error "NETWORK_ERROR" then
    json 500 [("error", JStr "Network connection error. Please try again.")]
  else
    json 500 [("error", JStr "Failed to fund address");
              ("details", JStr (message error))].

Definition fund_address (req : Request) : Eff Response :=
  try_catch (fund_address_try req) fund_address_catch.

(** *** GET /api/check-balance *)

Definition check_balance_try (req : Request) : Eff Response :=
  match req_address req, req_chainId req with
  | Some address, Some chainId =>
      if falsy address || falsy chainId then ret missing_parameters
      else
        match get_config registry chainId with
        | None => ret (unsupported_chain chainId)
        | Some networkConfig =>
            balance <- provider_getBalance (rpcUrl_of networkConfig) address ;;
            json 200 [("success", JBool true);
                      ("address", JStr address);
                      ("chainId", JStr chainId);
                      ("balance", JStr (formatEther E (Z.of_N balance)));
                      ("network", json_of (name_of networkConfig))]
        end
  | _, _ => ret missing_parameters
  end.

Definition check_balance_catch (error : JsError) : Eff Response :=
  json 500 [("error", JStr "Failed to check balance");
            ("details", JStr (message error))].

Definition check_balance (req : Request) : Eff Response :=
  try_catch (check_balance_try req) check_balance_catch.

(** *** GET /api/funding-status *)

(** The body of the loop over [Object.entries(NETWORK_CONFIGS)]: the
    value assigned to [balances[chainId]]. *)
Definition network_status (funderAddress : string) (config : NetworkConfig) : Eff Json :=
  try_catch
    (balance <- provider_getBalance (Some (rpcUrl config)) funderAddress ;;
     amount <- pure_call (parseEther E (Some (fundingAmount config))) ;;
     ret (JObj [("network", JStr (name config));
                ("balance", JStr (formatEther E (Z.of_N balance)));
                ("fundingAmount", JStr (fundingAmount config));
                ("canFund", JBool (Z.of_N balance >=? amount))]))
    (fun _ =>
       ret (JObj [("network", JStr (name config));
                  ("error", JStr "Failed to check balance")])).

Fixpoint check_networks (funderAddress : string)
         (entries : list (string * NetworkConfig))
         (balances : list (string * Json)) : Eff (list (string * Json)) :=
  match entries with
  | [] => ret balances
  | (chainId, config) :: rest =>
      entry <- network_status funderAddress config ;;
      check_networks funderAddress rest (set_field balances chainId entry)
  end.

Definition not_configured : Response :=
  mkResponse 200 [("configured", JBool false);
                  ("message", JStr "Funding service not configured")].

Definition funding_status_try : Eff Response :=
  match FUNDER_PRIVATE_KEY with
  | Some funderPrivateKey =>
      if falsy funderPrivateKey then ret not_configured
      else
        funderAddress <- pure_call (Wallet E funderPrivateKey) ;;
        balances <- check_networks funderAddress registry [] ;;
        json 200 [("configured", JBool true);
                  ("funderAddress", JStr funderAddress);
                  ("balances", JObj balances)]
  | None => ret not_configured
  end.

Definition funding_status : Eff Response :=
  try_catch funding_status_try
            (fun _ => json 500 [("error", JStr "Failed to check funding status")]).

End Handlers.

(** ** Reading a trace *)

Definition is_transfer (ev : Event) : bool :=
  match ev with
  | LedgerSendTransaction _ _ _ _ => true
  | _ => false
  end.

Definition is_ledger_call (ev : Event) : bool :=
  match ev with
  | Broadcast _ => false
  | _ => true
  end.

Definition is_broadcast (ev : Event) : bool :=
  match ev with
  | Broadcast _ => true
  | _ => false
  end.

(** The transfers submitted, the ledger calls attempted and the events
    published during a run. *)
Definition transfers (tr : Trace) : list Event := filter is_transfer tr.
Definition ledger_calls (tr : Trace) : list Event := filter is_ledger_call tr.
Definition published (tr : Trace) : list Event := filter is_broadcast tr.

(** The balance queries of the status aggregation over [entries], in
    order: one per network, all for the custodian's address. *)
Definition status_queries (funderAddress : string)
           (entries : list (string * NetworkConfig)) : Trace :=
  map (fun entry => LedgerGetBalance (Some (rpcUrl (snd entry))) funderAddress) entries.

(** What one turn of the loop assigns to [balances[chainId]], after the
    calls [tr]: the full report when the query of the network returns and
    its funding amount reads as an amount, the error entry when the query
    throws. *)
Definition network_entry (E : Ethers) (tr : Trace) (funderAddress : string)
           (config : NetworkConfig) (entry : Json) : Prop :=
  (forall balance amount,
      getBalance E tr (Some (rpcUrl config)) funderAddress = Ok balance ->
      parseEther E (Some (fundingAmount config)) = Ok amount ->
      entry = JObj [("network", JStr (name config));
                    ("balance", JStr (formatEther E (Z.of_N balance)));
                    ("fundingAmount", JStr (fundingAmount config));
                    ("canFund", JBool (Z.of_N balance >=? amount))])
  /\ (forall e,
         getBalance E tr (Some (rpcUrl config)) funderAddress = Throw e ->
         entry = JObj [("network", JStr (name config));
                       ("error", JStr "Failed to check balance")]).

(** ** The observers of the push channel *)

(** [ws.readyState] of a connected socket. *)
Inductive ReadyState : Type := CONNECTING | OPEN | CLOSING | CLOSED.

(** A member of [wss.clients]. *)
Record Client : Type := mkClient {
  client_id : nat;
  readyState : ReadyState
}.

Definition is_open (client : Client) : bool :=
  match readyState client with
  | OPEN => true
  | _ => false
  end.

(** The body of [broadcast(data)]: [client.send(JSON.stringify(data))] for
    each member of [wss.clients] that is [OPEN], in the order of the set.
    A message is the client it goes to and the data it carries. *)
Definition broadcast_to (clients : list Client) (data : list (string * Json))
  : list (nat * list (string * Json)) :=
  map (fun client => (client_id client, data)) (filter is_open clients).

(** The messages the events of a run put on the sockets of [clients]. *)
Definition sent_to (clients : list Client) (tr : Trace)
  : list (nat * list (string * Json)) :=
  flat_map (fun ev =>
              match ev with
              | Broadcast data => broadcast_to clients data
              | _ => []
              end) tr.

(** *** GET /health *)

Definition health (clients : list Client) (FUNDER_PRIVATE_KEY : option string) : Response :=
  mkResponse 200
    [("status", JStr "ok");
     ("services",
      JObj [("websocket",
             JStr (NilZero.string_of_uint (Nat.to_uint (List.length clients))
                   ++ " clients connected"));
            ("funding",
             JStr (if truthy FUNDER_PRIVATE_KEY then "configured"
                   else "not configured"))])].

(** *** POST /webhook *)

Definition webhook (payload : Json) : Eff Response :=
  broadcast [("type", JStr "webhookReceived"); ("data", payload)] ;;
  json 200 [("message", JStr "Webhook processed and broadcasted")].

(** ** The configuration store *)

(** [configurations] starts as the object literal [{}]: its own properties,
    and the object it inherits from.  [None] is [Object.prototype] as every
    literal has it; an assignment to [__proto__] can install another object,
    given by its fields, which inherits from [Object.prototype] in turn. *)
Record Store : Type := mkStore {
  own : list (string * Json);
  prototype : option (list (string * Json))
}.

Definition empty_store : Store := {| own := []; prototype := None |}.

(** What a property read finds: a value, or one of the functions of
    [Object.prototype]. *)
Inductive Property : Type :=
| Data (value : Json)
| Method (name : string).

(** The properties of [Object.prototype]: [__proto__] reads the object
    the store inherits from, the other names are functions. *)
Definition Object_prototype_get (inherits : list (string * Json)) (k : string)
  : option Property :=
  if String.eqb k "__proto__" then Some (Data (JObj inherits))
  else if inherited k then Some (Method k)
  else None.

(** [configurations[k]]: own properties first, then the chain of objects
    the store inherits from.  [Object.prototype] has no enumerable field
    of its own, so as a value it is the object without fields. *)
Definition store_get (configurations : Store) (k : string) : option Property :=
  match get_field (own configurations) k with
  | Some v => Some (Data v)
  | None =>
      match prototype configurations with
      | Some fields =>
          match get_field fields k with
          | Some v => Some (Data v)
          | None => Object_prototype_get fields k
          end
      | None => Object_prototype_get [] k
      end
  end.

Definition has_field {A : Type} (o : option (list (string * A))) (k : string) : bool :=
  match o with
  | Some fields =>
      match get_field fields k with
      | Some _ => true
      | None => false
      end
  | None => false
  end.

(** [configurations[k] = v].  The write makes or updates an own property,
    but for the name [__proto__] when neither the store nor the object it
    inherits from has a field of that name: the write then reaches the
    setter of [Object.prototype], which installs [v] as the object the
    store inherits from when [v] is an object and does nothing otherwise. *)
Definition store_set (configurations : Store) (k : string) (v : Json) : Store :=
  if String.eqb k "__proto__"
     && negb (has_field (Some (own configurations)) k)
     && negb (has_field (prototype configurations) k)
  then
    match v with
    | JObj fields => {| own := own configurations; prototype := Some fields |}
    | _ => configurations
    end
  else {| own := set_field (own configurations) k v;
          prototype := prototype configurations |}.

(** [!v] is false for the values that are truthy. *)
Definition json_truthy (v : Json) : bool :=
  match v with
  | JUndefined => false
  | JBool b => b
  | JNum n => negb (n =? 0)
  | JStr s => negb (falsy s)
  | JObj _ => true
  end.

(** A field of a body passes an [if (!v)] guard when it is there and
    truthy. *)
Definition json_present (v : option Json) : bool :=
  match v with
  | Some v => json_truthy v
  | None => false
  end.

Definition property_truthy (p : option Property) : bool :=
  match p with
  | Some (Data v) => json_truthy v
  | Some (Method _) => true
  | None => false
  end.

(** A property as a field of a response: a function has no JSON form and
    its field is left out, as an undefined one is. *)
Definition property_json (p : option Property) : Json :=
  match p with
  | Some (Data v) => v
  | _ => JUndefined
  end.

(** *** GET /config

    [chatId] is the query parameter, a string or missing. *)
Definition config_get (configurations : Store) (chatId : option string) : Response :=
  match chatId with
  | Some chatId =>
      if falsy chatId then mkResponse 400 [("message", JStr "chatId is required.")]
      else
        let config := store_get configurations chatId in
        if negb (property_truthy config) then
          mkResponse 404
            [("message", JStr ("No configuration found for chatId: " ++ chatId))]
        else
          mkResponse 200 [("message", JStr "Configuration retrieved successfully!");
                          ("data", property_json config)]
  | None => mkResponse 400 [("message", JStr "chatId is required.")]
  end.

(** *** POST /config

    [chatId] and [config] are the fields of the body: a string and a JSON
    value, each of which may be missing ([null] counts as missing, the
    handler tells neither from the other).  The handler answers and leaves
    the store it has written to. *)
Definition config_post (configurations : Store) (chatId : option string)
           (config : option Json) : Eff (Response * Store) :=
  match chatId, config with
  | Some chatId, Some config =>
      if falsy chatId || negb (json_truthy config) then
        ret (mkResponse 400 [("message", JStr "chatId and config are required.")],
             configurations)
      else
        let configurations := store_set configurations chatId config in
        broadcast [("type", JStr "configUpdated");
                   ("chatId", JStr chatId);
                   ("config", config)] ;;
        ret (mkResponse 200
               [("message", JStr "Configuration has been successfully saved!");
                ("data", property_json (store_get configurations chatId))],
             configurations)
  | _, _ =>
      ret (mkResponse 400 [("message", JStr "chatId and config are required.")],
           configurations)
  end.

(** Requests to [POST /config] served one after the other. *)
Fixpoint config_post_each (requests : list (option string * option Json))
         (configurations : Store) : Eff Store :=
  match requests with
  | [] => ret configurations
  | (chatId, config) :: rest =>
      answered <- config_post configurations chatId config ;;
      config_post_each rest (snd answered)
  end.

(** ** A concrete ethers and ledger, for the scenarios

    The handlers above are generic in [Ethers].  The scenarios run them on
    the decimal conversions of ethers ([parseEther] reads a decimal string
    as an amount of wei, 18 decimals; [formatEther] prints it back) and on
    a scripted ledger. *)

Module Scenario.

Definition digit (c : ascii) : option Z :=
  let n := Z.of_nat (nat_of_ascii c) in
  if (48 <=? n) && (n <=? 57) then Some (n - 48) else None.

(** The decimal digits of [s] read after [acc]; [count] is their number. *)
Fixpoint read_digits (s : string) (acc : Z) (count : nat) : option (Z * nat * string) :=
  match s with
  | EmptyString => Some (acc, count, EmptyString)
  | String c rest =>
      match digit c with
      | Some d => read_digits rest (10 * acc + d) (S count)
      | None => Some (acc, count, s)
      end
  end.

Definition invalid_argument (what : string) : JsError :=
  {| code := Some "INVALID_ARGUMENT"; message := what |}.

(** The first [n] digits of the fraction, padded with zeros on the right,
    and the digits that are left over. *)
Fixpoint fraction (n : nat) (s : string) (acc : Z) : Z * string :=
  match n with
  | O => (acc, s)
  | S n' =>
      match s with
      | EmptyString => fraction n' EmptyString (10 * acc)
      | String c rest =>
          match digit c with
          | Some d => fraction n' rest (10 * acc + d)
          | None => (acc, s)
          end
      end
  end.

Fixpoint all_zeros (s : string) : bool :=
  match s with
  | EmptyString => true
  | String c rest => Ascii.eqb c "0" && all_zeros rest
  end.

Definition parse_unsigned (s : string) : Result Z :=
  match read_digits s 0 0 with
  | Some (whole, nw, rest) =>
      let after_dot :=
        match rest with
        | String "."%char r => r
        | _ => rest
        end in
      match read_digits after_dot 0 0 with
      | Some (_, nf, EmptyString) =>
          if (nw + nf =? 0)%nat then Throw (invalid_argument "invalid FixedNumber string value")
          else
            let '(frac, extra) := fraction 18 after_dot 0 in
            if all_zeros extra then Ok (whole * 10 ^ 18 + frac)
            else Throw {| code := Some "NUMERIC_FAULT";
                          message := "too many decimals for format" |}
      | _ => Throw (invalid_argument "invalid FixedNumber string value")
      end
  | None => Throw (invalid_argument "invalid FixedNumber string value")
  end.

Definition parseEther (value : option string) : Result Z :=
  match value with
  | None => Throw (invalid_argument "value must be a string")
  | Some (String "-"%char s) =>
      match parse_unsigned s with
      | Ok v => Ok (- v)
      | Throw e => Throw e
      end
  | Some s => parse_unsigned s
  end.

(** [n] in decimal on [width] digits, least significant digit last. *)
Fixpoint decimal (width : nat) (n : Z) (acc : string) : string :=
  match width with
  | O => acc
  | S w => decimal w (n / 10) (String (ascii_of_nat (Z.to_nat (48 + n mod 10))) acc)
  end.

Fixpoint strip_leading_zeros (s : string) : string :=
  match s with
  | String "0"%char (String c rest as tail) => strip_leading_zeros tail
  | _ => s
  end.

(** Trailing zeros of a fraction are dropped, but for the last digit. *)
Fixpoint strip_trailing_zeros (s : string) : string :=
  match s with
  | EmptyString => EmptyString
  | String c rest =>
      match strip_trailing_zeros rest with
      | String "0"%char EmptyString =>
          match rest with
          | EmptyString => String c EmptyString
          | _ => if Ascii.eqb c "0" then "0" else String c EmptyString
          end
      | rest' => String c rest'
      end
  end.

Definition formatEther (wei : Z) : string :=
  let sign := if wei <? 0 then "-" else "" in
  let v := Z.abs wei in
  (sign ++ strip_leading_zeros (decimal 60 (v / 10 ^ 18) "") ++ "."
        ++ strip_trailing_zeros (decimal 18 (v mod 10 ^ 18) ""))%string.

Definition hex_digit (c : ascii) : bool :=
  let n := nat_of_ascii c in
  ((48 <=? n) && (n <=? 57) || (97 <=? n) && (n <=? 102))%nat.

Fixpoint all_hex (s : string) : bool :=
  match s with
  | EmptyString => true
  | String c rest => hex_digit c && all_hex rest
  end.

(** The lower-case hexadecimal addresses: [0x] and forty digits. *)
Definition isAddress (s : string) : bool :=
  match s with
  | String "0"%char (String "x"%char digits) =>
      (String.length digits =? 40)%nat && all_hex digits
  | _ => false
  end.

Definition funder : string := "0xf39fd6e51aad88f6f4ce6ab8827279cfffb92266".
Definition target : string := "0x70997970c51812dc3a010c7d01b50e0d17dc79c8".
Definition secret : string :=
  "0xac0974bec39a17e36ba4a6b4d238ff944bacb478cbed5efcae784d7bf4f2ff80".

(** One custodial key is known; any other string is not a key. *)
Definition Wallet (key : string) : Result string :=
  if String.eqb key secret then Ok funder
  else Throw (invalid_argument "invalid private key").

Definition tx : TransactionResponse := {| hash := "0x5c504ed432cb51138bcf09aa5e8a410dd4a1e204" |}.
Definition receipt : TransactionReceipt := {| blockNumber := 41532017 |}.

(** A ledger whose answers are fixed in advance: the balance of each
    address on each endpoint, and the outcome of a submission and of the
    wait for its confirmation. *)
Definition scripted (balanceOf : option string -> string -> Result N)
           (submitted : Result TransactionResponse)
           (confirmed : Result TransactionReceipt) : Ethers :=
  mkEthers isAddress parseEther formatEther Wallet
           (fun _ url address => balanceOf url address)
           (fun _ _ _ _ _ => submitted)
           (fun _ _ _ => confirmed).

(** The custodian holds [custodian] wei and the target [observed] wei on
    every endpoint; transfers go through. *)
Definition funded_ledger (custodian observed : N) : Ethers :=
  scripted (fun _ address =>
              if String.eqb address funder then Ok custodian else Ok observed)
           (Ok tx) (Ok receipt).

Definition request (address chainId : string) : Request :=
  {| req_address := Some address; req_chainId := Some chainId |}.

End Scenario.

Example parseEther_funding_amount :
  Scenario.parseEther (Some "0.0025") = Ok 2500000000000000.
Proof. reflexivity. Qed.

Example parseEther_one : Scenario.parseEther (Some "1.0") = Ok (10 ^ 18).
Proof. reflexivity. Qed.

Example parseEther_three_wei :
  Scenario.parseEther (Some "0.000000000000000003") = Ok 3.
Proof. reflexivity. Qed.

Example formatEther_funding_amount :
  Scenario.formatEther 2500000000000000 = "0.0025".
Proof. reflexivity. Qed.

Example formatEther_one : Scenario.formatEther (10 ^ 18) = "1.0".
Proof. reflexivity. Qed.

Example formatEther_zero : Scenario.formatEther 0 = "0.0".
Proof. reflexivity. Qed.

(** ** Running the handlers *)

Ltac unfold_handlers :=
  unfold fund_address, fund_address_try, fund_address_catch, fund_transfer,
    check_balance, check_balance_try, check_balance_catch,
    funding_status, funding_status_try,
    provider_getBalance, wallet_sendTransaction, tx_wait, broadcast, json,
    try_catch, bind, ret, pure_call, outbound.

(** Case analysis on the outcome the handler inspects next. *)
Ltac next_outcome :=
  match goal with
  | |- context [match ?x with _ => _ end] =>
      lazymatch x with
      | context [match _ with _ => _ end] => fail
      | _ => destruct x eqn:?
      end
  end.

Ltac all_outcomes := unfold_handlers; cbn; repeat (next_outcome; cbn).

Lemma fund_address_transfers_bound E registry key req :
  (List.length (transfers (snd (fund_address E registry key req []))) <= 1)%nat.
Proof.
  all_outcomes; auto.
Qed.

(** Deciding the two comparisons of the pipeline. *)
Lemma ltb_true x y : x < y -> (x <? y) = true.
Proof. intros; apply Z.ltb_lt; assumption. Qed.

Lemma ltb_false x y : y <= x -> (x <? y) = false.
Proof. intros; apply Z.ltb_ge; assumption. Qed.

Lemma geb_true x y : y <= x -> (x >=? y) = true.
Proof. intros; rewrite Z.geb_leb; apply Z.leb_le; assumption. Qed.

Lemma geb_false x y : x < y -> (x >=? y) = false.
Proof. intros; rewrite Z.geb_leb; apply Z.leb_gt; assumption. Qed.

(** BigInt division by two truncates: twice the threshold is the amount,
    or one unit away from it. *)
Lemma quot_two_bounds a :
  (0 <= a -> 2 * Z.quot a 2 <= a < 2 * Z.quot a 2 + 2) /\
  (a <= 0 -> 2 * Z.quot a 2 - 2 < a <= 2 * Z.quot a 2).
Proof.
  pose proof (Z.quot_rem' a 2) as Hqr.
  split; intros Ha.
  - pose proof (Z.rem_bound_pos a 2 Ha ltac:(lia)). lia.
  - pose proof (Z.rem_nonpos a 2 ltac:(lia) Ha).
    pose proof (Z.rem_bound_abs a 2 ltac:(lia)). lia.
Qed.

Lemma at_least_half a b : a <= 2 * b -> Z.quot a 2 <= b.
Proof.
  intros H. destruct (quot_two_bounds a) as [Hpos Hneg].
  destruct (Z.le_ge_cases 0 a) as [Ha | Ha]; [specialize (Hpos Ha) | specialize (Hneg Ha)]; lia.
Qed.

Lemma quot_two_even h : Z.quot (2 * h) 2 = h.
Proof. rewrite Z.mul_comm. apply Z.quot_mul. lia. Qed.

(** ** The early exits of the funding pipeline *)

Lemma fund_missing_parameters E registry envKey req :
  truthy (req_address req) && truthy (req_chainId req) = false ->
  fund_address E registry envKey req [] = (Ok missing_parameters, []).
Proof.
  destruct req as [[address |] [chainId |]]; cbn; intros H;
    unfold fund_address, fund_address_try, try_catch, ret; cbn; try reflexivity.
  destruct (falsy address), (falsy chainId); cbn in *; try reflexivity; discriminate.
Qed.

Lemma fund_invalid_address E registry envKey address chainId :
  falsy address = false ->
  falsy chainId = false ->
  isAddress E address = false ->
  fund_address E registry envKey (mkRequest (Some address) (Some chainId)) []
  = (Ok (mkResponse 400 [("error", JStr "Invalid Ethereum address")]), []).
Proof.
  intros Ha Hc Hv. unfold fund_address, fund_address_try, try_catch, json, ret; cbn.
  rewrite Ha, Hc, Hv. reflexivity.
Qed.

Lemma fund_unsupported_chain E registry envKey address chainId :
  falsy address = false ->
  falsy chainId = false ->
  isAddress E address = true ->
  get_config registry chainId = None ->
  fund_address E registry envKey (mkRequest (Some address) (Some chainId)) []
  = (Ok (unsupported_chain chainId), []).
Proof.
  intros Ha Hc Hv Hcfg. unfold fund_address, fund_address_try, try_catch, ret; cbn.
  rewrite Ha, Hc, Hv, Hcfg. reflexivity.
Qed.

Lemma fund_not_configured E registry envKey address chainId networkConfig :
  falsy address = false ->
  falsy chainId = false ->
  isAddress E address = true ->
  get_config registry chainId = Some networkConfig ->
  truthy envKey = false ->
  fund_address E registry envKey (mkRequest (Some address) (Some chainId)) []
  = (Ok (mkResponse 500
           [("error",
             JStr "Funding service not configured. Please contact administrator.")]),
     []).
Proof.
  intros Ha Hc Hv Hcfg Hkey. unfold fund_address, fund_address_try, try_catch, json, ret; cbn.
  rewrite Ha, Hc, Hv, Hcfg.
  destruct envKey as [key |]; cbn in *; [| reflexivity].
  destruct (falsy key); [reflexivity | discriminate].
Qed.

(** Without a custodial secret the pipeline ends before its first outbound
    call, whatever the request. *)
Lemma fund_unconfigured_silent E registry envKey req :
  truthy envKey = false ->
  snd (fund_address E registry envKey req []) = [].
Proof.
  intros Hkey.
  unfold fund_address, fund_address_try, try_catch, json, ret.
  destruct req as [[address |] [chainId |]]; cbn; try reflexivity.
  destruct (falsy address || falsy chainId); [reflexivity |].
  destruct (negb (isAddress E address)); [reflexivity |].
  destruct (get_config registry chainId); [| reflexivity].
  destruct envKey as [key |]; cbn in *; [| reflexivity].
  destruct (falsy key); [reflexivity | discriminate].
Qed.

(** ** The funding pipeline behind its first three checks *)

Section FundPipeline.

Variable E : Ethers.
Variable registry : list (string * NetworkConfig).
Variables address chainId key funder : string.
Variable networkConfig : ConfigValue.

Local Abbreviation req := (mkRequest (Some address) (Some chainId)).
Local Abbreviation url := (rpcUrl_of networkConfig).
Local Abbreviation custodian_query := (LedgerGetBalance url funder).
Local Abbreviation target_query := (LedgerGetBalance url address).

Hypothesis Haddress : falsy address = false.
Hypothesis HchainId : falsy chainId = false.
Hypothesis Hvalid : isAddress E address = true.
Hypothesis Hconfig : get_config registry chainId = Some networkConfig.
Hypothesis Hkey : falsy key = false.

Lemma fund_reaches_transfer :
  fund_address_try E registry (Some key) req
  = fund_transfer E address chainId networkConfig key.
Proof.
  unfold fund_address_try; cbn.
  rewrite Haddress, HchainId, Hvalid, Hconfig, Hkey. reflexivity.
Qed.

Lemma fund_wallet_throws e :
  Wallet E key = Throw e ->
  fund_address E registry (Some key) req [] = fund_address_catch e [].
Proof.
  intros Hthrow. unfold fund_address; rewrite fund_reaches_transfer.
  unfold fund_transfer, try_catch, bind, pure_call; cbn.
  rewrite Hthrow. reflexivity.
Qed.

Hypothesis Hwallet : Wallet E key = Ok funder.

Lemma fund_custodian_query_throws e :
  getBalance E [] url funder = Throw e ->
  fund_address E registry (Some key) req [] = fund_address_catch e [custodian_query].
Proof.
  intros Hthrow. unfold fund_address; rewrite fund_reaches_transfer.
  unfold fund_transfer, try_catch, bind, pure_call, provider_getBalance, outbound; cbn.
  rewrite Hwallet, Hthrow. reflexivity.
Qed.

Variable funderBalance : N.
Variable amount : Z.
Hypothesis Hcustodian : getBalance E [] url funder = Ok funderBalance.
Hypothesis Hamount : parseEther E (fundingAmount_of networkConfig) = Ok amount.

Lemma fund_amount_throws e :
  parseEther E (fundingAmount_of networkConfig) = Throw e ->
  fund_address E registry (Some key) req [] = fund_address_catch e [custodian_query].
Proof.
  intros Hthrow. unfold fund_address; rewrite fund_reaches_transfer.
  unfold fund_transfer, try_catch, bind, pure_call, provider_getBalance, outbound; cbn.
  rewrite Hwallet, Hcustodian, Hthrow. reflexivity.
Qed.

Ltac run_pipeline :=
  unfold fund_address; rewrite fund_reaches_transfer;
  unfold fund_transfer, provider_getBalance, wallet_sendTransaction, tx_wait,
    broadcast, json, try_catch, bind, ret, pure_call, outbound; cbn;
  rewrite Hwallet, Hcustodian, Hamount; cbn.

(** A custodian that cannot afford the funding amount. *)
Lemma fund_underfunded :
  Z.of_N funderBalance < amount ->
  fund_address E registry (Some key) req []
  = (Ok (mkResponse 500
           [("error",
             JStr "Funding service temporarily unavailable. Insufficient balance.")]),
     [custodian_query]).
Proof.
  intros Hlt. run_pipeline. rewrite (ltb_true _ _ Hlt). reflexivity.
Qed.

Hypothesis Hafford : amount <= Z.of_N funderBalance.

Variable addressBalance : N.
Hypothesis Htarget : getBalance E [custodian_query] url address = Ok addressBalance.

Lemma fund_already_funded :
  Z.quot amount 2 <= Z.of_N addressBalance ->
  fund_address E registry (Some key) req []
  = (Ok (mkResponse 200
           [("success", JBool true);
            ("message", JStr "Address already has sufficient balance");
            ("balance", JStr (formatEther E (Z.of_N addressBalance)));
            ("funded", JBool false)]),
     [custodian_query; target_query]).
Proof.
  intros Hge. run_pipeline.
  rewrite (ltb_false _ _ Hafford), Htarget; cbn.
  rewrite (geb_true _ _ Hge). reflexivity.
Qed.

Lemma fund_target_query_throws e :
  getBalance E [custodian_query] url address = Throw e ->
  fund_address E registry (Some key) req []
  = fund_address_catch e [custodian_query; target_query].
Proof.
  intros Hthrow. run_pipeline.
  rewrite (ltb_false _ _ Hafford), Hthrow. reflexivity.
Qed.

Local Abbreviation transfer := (LedgerSendTransaction url funder address amount).

Lemma fund_submits_transfer :
  Z.of_N addressBalance < Z.quot amount 2 ->
  exists outcome rest,
    fund_address E registry (Some key) req []
    = (Ok outcome, [custodian_query; target_query; transfer] ++ rest)
    /\ transfers rest = [].
Proof.
  intros Hlt. run_pipeline.
  rewrite (ltb_false _ _ Hafford), Htarget; cbn.
  rewrite (geb_false _ _ Hlt).
  unfold fund_address_catch, json, ret.
  repeat (next_outcome; cbn); eexists; eexists;
    (split; [reflexivity | reflexivity]).
Qed.

Lemma fund_submission_throws e :
  Z.of_N addressBalance < Z.quot amount 2 ->
  sendTransaction E [custodian_query; target_query] url funder address amount = Throw e ->
  fund_address E registry (Some key) req []
  = fund_address_catch e [custodian_query; target_query; transfer].
Proof.
  intros Hlt Hthrow. run_pipeline.
  rewrite (ltb_false _ _ Hafford), Htarget; cbn.
  rewrite (geb_false _ _ Hlt), Hthrow. reflexivity.
Qed.

Lemma fund_confirmation_throws tx e :
  Z.of_N addressBalance < Z.quot amount 2 ->
  sendTransaction E [custodian_query; target_query] url funder address amount = Ok tx ->
  wait E [custodian_query; target_query; transfer] tx 1 = Throw e ->
  fund_address E registry (Some key) req []
  = fund_address_catch e [custodian_query; target_query; transfer;
                          LedgerWait (hash tx) 1].
Proof.
  intros Hlt Hsend Hthrow. run_pipeline.
  rewrite (ltb_false _ _ Hafford), Htarget; cbn.
  rewrite (geb_false _ _ Hlt), Hsend; cbn.
  rewrite Hthrow. reflexivity.
Qed.

Lemma fund_funded tx receipt :
  Z.of_N addressBalance < Z.quot amount 2 ->
  sendTransaction E [custodian_query; target_query] url funder address amount = Ok tx ->
  wait E [custodian_query; target_query; transfer] tx 1 = Ok receipt ->
  fund_address E registry (Some key) req []
  = (Ok (mkResponse 200
           [("success", JBool true);
            ("message",
             JStr ("Successfully funded " ++ address ++ " with "
                   ++ interpolate (fundingAmount_of networkConfig) ++ " on "
                   ++ interpolate (name_of networkConfig)));
            ("txHash", JStr (hash tx));
            ("blockNumber", JNum (blockNumber receipt));
            ("funded", JBool true)]),
     [custodian_query; target_query; transfer; LedgerWait (hash tx) 1;
      Broadcast [("type", JStr "addressFunded");
                 ("address", JStr address);
                 ("chainId", JStr chainId);
                 ("amount", json_of (fundingAmount_of networkConfig));
                 ("txHash", JStr (hash tx))]]).
Proof.
  intros Hlt Hsend Hwait. run_pipeline.
  rewrite (ltb_false _ _ Hafford), Htarget; cbn.
  rewrite (geb_false _ _ Hlt), Hsend; cbn.
  rewrite Hwait; cbn. reflexivity.
Qed.

End FundPipeline.

(** ** The funding decision *)

(** C4.  A fund call that resolves its network and finds the custodian's
    balance strictly below the configured funding amount answers with the
    HTTP 500 "insufficient balance" rejection; the only ledger call of the
    whole run is the query of the custodian's balance, so the target's
    balance is never queried and no transfer is submitted, whatever the
    ledger would have answered for the target. *)
Theorem underfunded_custodian_rejected
  E registry address chainId key funder networkConfig funderBalance amount :
  falsy address = false ->
  falsy chainId = false ->
  isAddress E address = true ->
  get_config registry chainId = Some networkConfig ->
  falsy key = false ->
  Wallet E key = Ok funder ->
  getBalance E [] (rpcUrl_of networkConfig) funder = Ok funderBalance ->
  parseEther E (fundingAmount_of networkConfig) = Ok amount ->
  Z.of_N funderBalance < amount ->
  let run := fund_address E registry (Some key)
                          (mkRequest (Some address) (Some chainId)) [] in
  fst run = Ok (mkResponse 500
                  [("error",
                    JStr "Funding service temporarily unavailable. Insufficient balance.")])
  /\ snd run = [LedgerGetBalance (rpcUrl_of networkConfig) funder]
  /\ transfers (snd run) = [].
Proof.
  intros Ha Hc Hv Hcfg Hk Hw Hfb Hamt Hlt run.
  subst run.
  rewrite (fund_underfunded E registry address chainId key funder networkConfig
             Ha Hc Hv Hcfg Hk Hw funderBalance amount Hfb Hamt Hlt).
  cbn. auto.
Qed.

Lemma underfunded_custodian_rejected_witness :
  let run := fund_address (Scenario.funded_ledger 1000000000000000 0)
                          NETWORK_CONFIGS (Some Scenario.secret)
                          (Scenario.request Scenario.target "97") [] in
  fst run = Ok (mkResponse 500
                  [("error",
                    JStr "Funding service temporarily unavailable. Insufficient balance.")])
  /\ snd run = [LedgerGetBalance (Some "https://data-seed-prebsc-1-s1.binance.org:8545")
                                 Scenario.funder]
  /\ transfers (snd run) = [].
Proof.
  apply (underfunded_custodian_rejected
           (Scenario.funded_ledger 1000000000000000 0) NETWORK_CONFIGS
           Scenario.target "97" Scenario.secret Scenario.funder
           (OwnConfig {| rpcUrl := "https://data-seed-prebsc-1-s1.binance.org:8545";
                         fundingAmount := "0.0025";
                         name := "BSC Testnet" |})
           1000000000000000 2500000000000000);
    try reflexivity.
Defined.

(** C1.  A fund call that passes address validation and network lookup
    submits at most one transfer.  When it gets as far as observing the
    target's balance (the custodian check passed), a balance of at least
    half the funding amount gives the "already has sufficient balance"
    answer and no transfer; in particular a balance of exactly half does,
    while a balance one wei below half has the transfer of the full amount
    submitted, once. *)
Theorem transfer_only_below_half
  E registry envKey address chainId networkConfig :
  falsy address = false ->
  falsy chainId = false ->
  isAddress E address = true ->
  get_config registry chainId = Some networkConfig ->
  let run := fund_address E registry envKey
                          (mkRequest (Some address) (Some chainId)) [] in
  (List.length (transfers (snd run)) <= 1)%nat
  /\ forall key funder funderBalance amount addressBalance,
      envKey = Some key ->
      falsy key = false ->
      Wallet E key = Ok funder ->
      getBalance E [] (rpcUrl_of networkConfig) funder = Ok funderBalance ->
      parseEther E (fundingAmount_of networkConfig) = Ok amount ->
      amount <= Z.of_N funderBalance ->
      getBalance E [LedgerGetBalance (rpcUrl_of networkConfig) funder]
                 (rpcUrl_of networkConfig) address = Ok addressBalance ->
      let already_funded :=
        mkResponse 200
          [("success", JBool true);
           ("message", JStr "Address already has sufficient balance");
           ("balance", JStr (formatEther E (Z.of_N addressBalance)));
           ("funded", JBool false)] in
      (amount <= 2 * Z.of_N addressBalance ->
       fst run = Ok already_funded /\ transfers (snd run) = [])
      /\ (2 * Z.of_N addressBalance = amount ->
          fst run = Ok already_funded /\ transfers (snd run) = [])
      /\ (2 * (Z.of_N addressBalance + 1) = amount ->
          transfers (snd run)
          = [LedgerSendTransaction (rpcUrl_of networkConfig) funder address amount]).
Proof.
  intros Ha Hc Hv Hcfg run. split.
  - apply fund_address_transfers_bound.
  - intros key funder fb amount b -> Hk Hw Hfb Hamt Hafford Hb already_funded.
    assert (Hfunded : amount <= 2 * Z.of_N b ->
                      fst run = Ok already_funded /\ transfers (snd run) = []).
    { intros Hhalf. subst run.
      rewrite (fund_already_funded E registry address chainId key funder networkConfig
                 Ha Hc Hv Hcfg Hk Hw fb amount Hfb Hamt Hafford b Hb
                 (at_least_half _ _ Hhalf)).
      cbn. auto. }
    split; [assumption | split].
    + intros Heq. apply Hfunded. lia.
    + intros Heq.
      assert (Hlt : Z.of_N b < Z.quot amount 2).
      { rewrite <- Heq, quot_two_even. lia. }
      destruct (fund_submits_transfer E registry address chainId key funder networkConfig
                  Ha Hc Hv Hcfg Hk Hw fb amount Hfb Hamt Hafford b Hb Hlt)
        as (outcome & rest & Hrun & Hrest).
      subst run. rewrite Hrun. cbn. unfold transfers in Hrest. rewrite Hrest.
      reflexivity.
Qed.

Lemma transfer_only_below_half_witness :
  transfers (snd (fund_address (Scenario.funded_ledger (10 ^ 18) 1250000000000000)
                               NETWORK_CONFIGS (Some Scenario.secret)
                               (Scenario.request Scenario.target "97") [])) = []
  /\ transfers (snd (fund_address (Scenario.funded_ledger (10 ^ 18) 1249999999999999)
                                  NETWORK_CONFIGS (Some Scenario.secret)
                                  (Scenario.request Scenario.target "97") []))
     = [LedgerSendTransaction (Some "https://data-seed-prebsc-1-s1.binance.org:8545")
                              Scenario.funder Scenario.target 2500000000000000].
Proof.
  pose (bsc := OwnConfig {| rpcUrl := "https://data-seed-prebsc-1-s1.binance.org:8545";
                            fundingAmount := "0.0025";
                            name := "BSC Testnet" |}).
  split.
  - refine (proj2 (proj1 (proj2 (proj2
      (transfer_only_below_half
         (Scenario.funded_ledger (10 ^ 18) 1250000000000000) NETWORK_CONFIGS
         (Some Scenario.secret) Scenario.target "97" bsc
         eq_refl eq_refl eq_refl eq_refl)
      Scenario.secret Scenario.funder (10 ^ 18)%N 2500000000000000 1250000000000000%N
      eq_refl eq_refl eq_refl eq_refl eq_refl _ eq_refl)) eq_refl)).
    vm_compute; discriminate.
  - refine (proj2 (proj2 (proj2
      (transfer_only_below_half
         (Scenario.funded_ledger (10 ^ 18) 1249999999999999) NETWORK_CONFIGS
         (Some Scenario.secret) Scenario.target "97" bsc
         eq_refl eq_refl eq_refl eq_refl)
      Scenario.secret Scenario.funder (10 ^ 18)%N 2500000000000000 1249999999999999%N
      eq_refl eq_refl eq_refl eq_refl eq_refl _ eq_refl)) eq_refl).
    vm_compute; discriminate.
Defined.

(** C10.  The threshold is the BigInt quotient of the funding amount by
    two.  For a network whose funding amount is an odd number of wei, a
    target holding [floor(amount / 2)] wei is strictly below the exact half,
    the quotient is that floor, and the call answers "already has sufficient
    balance" after its two balance queries, without a transfer. *)
Theorem odd_amount_threshold_rounds_down
  E registry address chainId key funder networkConfig funderBalance amount addressBalance :
  falsy address = false ->
  falsy chainId = false ->
  isAddress E address = true ->
  get_config registry chainId = Some networkConfig ->
  falsy key = false ->
  Wallet E key = Ok funder ->
  getBalance E [] (rpcUrl_of networkConfig) funder = Ok funderBalance ->
  parseEther E (fundingAmount_of networkConfig) = Ok amount ->
  amount <= Z.of_N funderBalance ->
  getBalance E [LedgerGetBalance (rpcUrl_of networkConfig) funder]
             (rpcUrl_of networkConfig) address = Ok addressBalance ->
  Z.odd amount = true ->
  Z.of_N addressBalance = amount / 2 ->
  let run := fund_address E registry (Some key)
                          (mkRequest (Some address) (Some chainId)) [] in
  2 * Z.of_N addressBalance < amount
  /\ Z.quot amount 2 = amount / 2
  /\ fst run = Ok (mkResponse 200
                     [("success", JBool true);
                      ("message", JStr "Address already has sufficient balance");
                      ("balance", JStr (formatEther E (Z.of_N addressBalance)));
                      ("funded", JBool false)])
  /\ snd run = [LedgerGetBalance (rpcUrl_of networkConfig) funder;
                LedgerGetBalance (rpcUrl_of networkConfig) address]
  /\ transfers (snd run) = [].
Proof.
  intros Ha Hc Hv Hcfg Hk Hw Hfb Hamt Hafford Hb Hodd Hfloor run.
  pose proof (N2Z.is_nonneg addressBalance) as Hnonneg.
  pose proof (Z.div_mod amount 2 ltac:(lia)) as Hdm.
  assert (Hmod : amount mod 2 = 1).
  { rewrite Zmod_odd, Hodd. reflexivity. }
  assert (Hpos : 0 <= amount) by lia.
  assert (Hquot : Z.quot amount 2 = amount / 2).
  { apply Z.quot_div_nonneg; lia. }
  split; [lia | split; [assumption |]].
  subst run.
  rewrite (fund_already_funded E registry address chainId key funder networkConfig
             Ha Hc Hv Hcfg Hk Hw funderBalance amount Hfb Hamt Hafford addressBalance Hb
             ltac:(lia)).
  cbn. auto.
Qed.

Lemma odd_amount_threshold_rounds_down_witness :
  let registry :=
    [("31337", {| rpcUrl := "http://127.0.0.1:8545";
                  fundingAmount := "0.000000000000000003";
                  name := "Local" |})] in
  let run := fund_address (Scenario.funded_ledger 5 1) registry (Some Scenario.secret)
                          (Scenario.request Scenario.target "31337") [] in
  2 * 1 < 3
  /\ Z.quot 3 2 = 3 / 2
  /\ fst run = Ok (mkResponse 200
                     [("success", JBool true);
                      ("message", JStr "Address already has sufficient balance");
                      ("balance", JStr "0.000000000000000001");
                      ("funded", JBool false)])
  /\ snd run = [LedgerGetBalance (Some "http://127.0.0.1:8545") Scenario.funder;
                LedgerGetBalance (Some "http://127.0.0.1:8545") Scenario.target]
  /\ transfers (snd run) = [].
Proof.
  apply (odd_amount_threshold_rounds_down
           (Scenario.funded_ledger 5 1)
           [("31337", {| rpcUrl := "http://127.0.0.1:8545";
                         fundingAmount := "0.000000000000000003";
                         name := "Local" |})]
           Scenario.target "31337" Scenario.secret Scenario.funder
           (OwnConfig {| rpcUrl := "http://127.0.0.1:8545";
                         fundingAmount := "0.000000000000000003";
                         name := "Local" |})
           5%N 3 1%N);
    try reflexivity.
  vm_compute; discriminate.
Defined.

(** ** The order of the pipeline *)

Lemma fund_address_catch_returns e tr :
  exists response, fund_address_catch e tr = (Ok response, tr).
Proof.
  unfold fund_address_catch, json, ret.
  destruct (code_is e "INSUFFICIENT_FUNDS"); [eexists; reflexivity |].
  destruct (code_is e "NETWORK_ERROR"); eexists; reflexivity.
Qed.

Lemma fund_address_catch_trace e tr : snd (fund_address_catch e tr) = tr.
Proof.
  destruct (fund_address_catch_returns e tr) as [response ->]. reflexivity.
Qed.

(** C2, as the code has it.  The pipeline opens with a presence check of
    both parameters (HTTP 400 "Missing required parameters"); then come, in
    this order and each with its own early exit, the syntactic validation
    of the address, the registry lookup of the chain, the presence check of
    the custodial secret, the custodian's balance against the funding
    amount, the target's balance against the threshold, the submission of
    the transfer and the wait for one confirmation.  The trace of each exit
    holds the calls of the steps before it and nothing of the steps after:
    it is empty when the request, the lookup or the secret check fails, and
    a step at which the library or the ledger throws is the last one of
    the run. *)
Theorem fund_pipeline_order E registry envKey req :
  let run := fund_address E registry envKey req [] in
  (truthy (req_address req) && truthy (req_chainId req) = false ->
   run = (Ok missing_parameters, []))
  /\ forall address chainId,
      req = mkRequest (Some address) (Some chainId) ->
      falsy address = false ->
      falsy chainId = false ->
      (isAddress E address = false ->
       run = (Ok (mkResponse 400 [("error", JStr "Invalid Ethereum address")]), []))
      /\ (isAddress E address = true ->
          (get_config registry chainId = None ->
           run = (Ok (unsupported_chain chainId), []))
          /\ forall networkConfig,
              get_config registry chainId = Some networkConfig ->
              (truthy envKey = false ->
               run = (Ok (mkResponse 500
                            [("error",
                              JStr "Funding service not configured. Please contact administrator.")]),
                      []))
              /\ forall key,
                  envKey = Some key ->
                  falsy key = false ->
                  (forall e, Wallet E key = Throw e -> snd run = [])
                  /\ forall funder,
                  Wallet E key = Ok funder ->
                  let url := rpcUrl_of networkConfig in
                  let custodian_query := LedgerGetBalance url funder in
                  let target_query := LedgerGetBalance url address in
                  (forall e, getBalance E [] url funder = Throw e ->
                             snd run = [custodian_query])
                  /\ forall funderBalance,
                      getBalance E [] url funder = Ok funderBalance ->
                      (forall e,
                          parseEther E (fundingAmount_of networkConfig) = Throw e ->
                          snd run = [custodian_query])
                      /\ forall amount,
                      parseEther E (fundingAmount_of networkConfig) = Ok amount ->
                      (Z.of_N funderBalance < amount ->
                       run = (Ok (mkResponse 500
                                    [("error",
                                      JStr "Funding service temporarily unavailable. Insufficient balance.")]),
                              [custodian_query]))
                      /\ (amount <= Z.of_N funderBalance ->
                          (forall e, getBalance E [custodian_query] url address = Throw e ->
                                     snd run = [custodian_query; target_query])
                          /\ forall addressBalance,
                              getBalance E [custodian_query] url address = Ok addressBalance ->
                              (Z.quot amount 2 <= Z.of_N addressBalance ->
                               run = (Ok (mkResponse 200
                                            [("success", JBool true);
                                             ("message",
                                              JStr "Address already has sufficient balance");
                                             ("balance",
                                              JStr (formatEther E (Z.of_N addressBalance)));
                                             ("funded", JBool false)]),
                                      [custodian_query; target_query]))
                              /\ (Z.of_N addressBalance < Z.quot amount 2 ->
                                  let transfer :=
                                    LedgerSendTransaction url funder address amount in
                                  let checked := [custodian_query; target_query] in
                                  (forall e,
                                      sendTransaction E checked url funder address amount
                                      = Throw e ->
                                      snd run = checked ++ [transfer])
                                  /\ forall tx,
                                      sendTransaction E checked url funder address amount
                                      = Ok tx ->
                                      (forall e,
                                          wait E (checked ++ [transfer]) tx 1 = Throw e ->
                                          snd run
                                          = checked ++ [transfer; LedgerWait (hash tx) 1])
                                      /\ forall receipt,
                                          wait E (checked ++ [transfer]) tx 1 = Ok receipt ->
                                          run
                                          = (Ok (mkResponse 200
                                                   [("success", JBool true);
                                                    ("message",
                                                     JStr ("Successfully funded " ++ address
                                                           ++ " with "
                                                           ++ interpolate
                                                                (fundingAmount_of networkConfig)
                                                           ++ " on "
                                                           ++ interpolate
                                                                (name_of networkConfig)));
                                                    ("txHash", JStr (hash tx));
                                                    ("blockNumber", JNum (blockNumber receipt));
                                                    ("funded", JBool true)]),
                                             checked
                                             ++ [transfer; LedgerWait (hash tx) 1;
                                                 Broadcast
                                                   [("type", JStr "addressFunded");
                                                    ("address", JStr address);
                                                    ("chainId", JStr chainId);
                                                    ("amount",
                                                     json_of (fundingAmount_of networkConfig));
                                                    ("txHash", JStr (hash tx))]])))).
Proof.
  intros run. split.
  { apply fund_missing_parameters. }
  intros address chainId -> Ha Hc. split.
  { intros Hv. apply fund_invalid_address; assumption. }
  intros Hv. split.
  { intros Hcfg. apply fund_unsupported_chain; assumption. }
  intros networkConfig Hcfg. split.
  { intros Hkey. apply (fund_not_configured _ _ _ _ _ networkConfig); assumption. }
  intros key -> Hk. split.
  { intros e He. subst run.
    rewrite (fund_wallet_throws E registry address chainId key networkConfig
               Ha Hc Hv Hcfg Hk e He).
    apply fund_address_catch_trace. }
  intros funder Hw url custodian_query target_query. split.
  { intros e He. subst run.
    rewrite (fund_custodian_query_throws E registry address chainId key funder
               networkConfig Ha Hc Hv Hcfg Hk Hw e He).
    apply fund_address_catch_trace. }
  intros fb Hfb. split.
  { intros e He. subst run.
    rewrite (fund_amount_throws E registry address chainId key funder
               networkConfig Ha Hc Hv Hcfg Hk Hw fb Hfb e He).
    apply fund_address_catch_trace. }
  intros amount Hamt. split.
  { intros Hlt.
    apply (fund_underfunded E registry address chainId key funder networkConfig
             Ha Hc Hv Hcfg Hk Hw fb amount Hfb Hamt Hlt). }
  intros Hafford. split.
  { intros e He. subst run.
    rewrite (fund_target_query_throws E registry address chainId key funder
               networkConfig Ha Hc Hv Hcfg Hk Hw fb amount Hfb Hamt Hafford e He).
    apply fund_address_catch_trace. }
  intros b Hb. split.
  { intros Hge.
    apply (fund_already_funded E registry address chainId key funder networkConfig
             Ha Hc Hv Hcfg Hk Hw fb amount Hfb Hamt Hafford b Hb Hge). }
  intros Hlt transfer checked. split.
  { intros e He. subst run.
    rewrite (fund_submission_throws E registry address chainId key funder
               networkConfig Ha Hc Hv Hcfg Hk Hw fb amount Hfb Hamt Hafford b Hb e Hlt He).
    apply fund_address_catch_trace. }
  intros tx Htx. split.
  { intros e He. subst run.
    rewrite (fund_confirmation_throws E registry address chainId key funder
               networkConfig Ha Hc Hv Hcfg Hk Hw fb amount Hfb Hamt Hafford b Hb tx e
               Hlt Htx He).
    apply fund_address_catch_trace. }
  intros receipt Hreceipt.
  apply (fund_funded E registry address chainId key funder networkConfig
           Ha Hc Hv Hcfg Hk Hw fb amount Hfb Hamt Hafford b Hb tx receipt Hlt Htx Hreceipt).
Qed.

Lemma fund_pipeline_order_witness :
  fund_address (Scenario.funded_ledger (10 ^ 18) 0) NETWORK_CONFIGS
               (Some Scenario.secret) (Scenario.request Scenario.target "97") []
  = (Ok (mkResponse 200
           [("success", JBool true);
            ("message",
             JStr "Successfully funded 0x70997970c51812dc3a010c7d01b50e0d17dc79c8 with 0.0025 on BSC Testnet");
            ("txHash", JStr (hash Scenario.tx));
            ("blockNumber", JNum 41532017);
            ("funded", JBool true)]),
     [LedgerGetBalance (Some "https://data-seed-prebsc-1-s1.binance.org:8545")
                       Scenario.funder;
      LedgerGetBalance (Some "https://data-seed-prebsc-1-s1.binance.org:8545")
                       Scenario.target;
      LedgerSendTransaction (Some "https://data-seed-prebsc-1-s1.binance.org:8545")
                            Scenario.funder Scenario.target 2500000000000000;
      LedgerWait (hash Scenario.tx) 1;
      Broadcast [("type", JStr "addressFunded");
                 ("address", JStr Scenario.target);
                 ("chainId", JStr "97");
                 ("amount", JStr "0.0025");
                 ("txHash", JStr (hash Scenario.tx))]]).
Proof.
  pose proof (fund_pipeline_order (Scenario.funded_ledger (10 ^ 18) 0) NETWORK_CONFIGS
                (Some Scenario.secret) (Scenario.request Scenario.target "97")) as H.
  cbv zeta in H. destruct H as [_ H].
  specialize (H Scenario.target "97" eq_refl eq_refl eq_refl). destruct H as [_ H].
  specialize (H eq_refl). destruct H as [_ H].
  specialize (H (OwnConfig {| rpcUrl := "https://data-seed-prebsc-1-s1.binance.org:8545";
                              fundingAmount := "0.0025";
                              name := "BSC Testnet" |}) eq_refl).
  destruct H as [_ H].
  specialize (H Scenario.secret eq_refl eq_refl). destruct H as [_ H].
  specialize (H Scenario.funder eq_refl). destruct H as [_ H].
  specialize (H (10 ^ 18)%N eq_refl). destruct H as [_ H].
  specialize (H 2500000000000000 eq_refl). destruct H as [_ H].
  assert (Hafford : 2500000000000000 <= Z.of_N (10 ^ 18)) by (vm_compute; discriminate).
  specialize (H Hafford). destruct H as [_ H].
  specialize (H 0%N eq_refl). destruct H as [_ H].
  specialize (H eq_refl). destruct H as [_ H].
  specialize (H Scenario.tx eq_refl). destruct H as [_ H].
  exact (H Scenario.receipt eq_refl).
Defined.

(** C2, the claim as stated: the validation of the address is not the first
    check.  A request with a malformed address and no chainId is answered
    by the presence check, not with the "invalid address" rejection. *)
Lemma fund_presence_check_comes_first :
  let req := {| req_address := Some "not-an-address"; req_chainId := None |} in
  let run := fund_address (Scenario.funded_ledger (10 ^ 18) 0) NETWORK_CONFIGS
                          (Some Scenario.secret) req [] in
  Scenario.isAddress "not-an-address" = false
  /\ fst run
     = Ok (mkResponse 400
             [("error", JStr "Missing required parameters: address and chainId")])
  /\ fst run <> Ok (mkResponse 400 [("error", JStr "Invalid Ethereum address")]).
Proof.
  cbn. repeat split. discriminate.
Qed.

(** ** A successful funding *)

(** C3, as the code has it.  When the transfer is submitted and confirmed,
    the answer is an HTTP 200 that carries the transaction hash and the
    confirming block number, with the amount sent named in its message; one
    event is published, of type [addressFunded], and it carries the
    address, the chainId, the amount and the transaction hash. *)
Theorem funded_outcome_and_event
  E registry address chainId key funder config funderBalance amount addressBalance
  tx receipt :
  falsy address = false ->
  falsy chainId = false ->
  isAddress E address = true ->
  get_config registry chainId = Some (OwnConfig config) ->
  falsy key = false ->
  Wallet E key = Ok funder ->
  let url := Some (rpcUrl config) in
  let checked := [LedgerGetBalance url funder; LedgerGetBalance url address] in
  let transfer := LedgerSendTransaction url funder address amount in
  getBalance E [] url funder = Ok funderBalance ->
  parseEther E (Some (fundingAmount config)) = Ok amount ->
  amount <= Z.of_N funderBalance ->
  getBalance E [LedgerGetBalance url funder] url address = Ok addressBalance ->
  Z.of_N addressBalance < Z.quot amount 2 ->
  sendTransaction E checked url funder address amount = Ok tx ->
  wait E (checked ++ [transfer]) tx 1 = Ok receipt ->
  let run := fund_address E registry (Some key)
                          (mkRequest (Some address) (Some chainId)) [] in
  let event := [("type", JStr "addressFunded");
                ("address", JStr address);
                ("chainId", JStr chainId);
                ("amount", JStr (fundingAmount config));
                ("txHash", JStr (hash tx))] in
  fst run = Ok (mkResponse 200
                  [("success", JBool true);
                   ("message",
                    JStr ("Successfully funded " ++ address ++ " with "
                          ++ fundingAmount config ++ " on " ++ name config));
                   ("txHash", JStr (hash tx));
                   ("blockNumber", JNum (blockNumber receipt));
                   ("funded", JBool true)])
  /\ snd run = checked ++ [transfer; LedgerWait (hash tx) 1; Broadcast event]
  /\ transfers (snd run) = [transfer]
  /\ published (snd run) = [Broadcast event].
Proof.
  intros Ha Hc Hv Hcfg Hk Hw url checked transfer Hfb Hamt Hafford Hb Hlt Htx Hreceipt
         run event.
  subst run.
  rewrite (fund_funded E registry address chainId key funder (OwnConfig config)
             Ha Hc Hv Hcfg Hk Hw funderBalance amount Hfb Hamt Hafford addressBalance Hb
             tx receipt Hlt Htx Hreceipt).
  cbn. auto.
Qed.

Lemma funded_outcome_and_event_witness :
  let run := fund_address (Scenario.funded_ledger (10 ^ 18) 0) NETWORK_CONFIGS
                          (Some Scenario.secret)
                          (Scenario.request Scenario.target "97") [] in
  let event := [("type", JStr "addressFunded");
                ("address", JStr Scenario.target);
                ("chainId", JStr "97");
                ("amount", JStr "0.0025");
                ("txHash", JStr (hash Scenario.tx))] in
  fst run = Ok (mkResponse 200
                  [("success", JBool true);
                   ("message",
                    JStr "Successfully funded 0x70997970c51812dc3a010c7d01b50e0d17dc79c8 with 0.0025 on BSC Testnet");
                   ("txHash", JStr (hash Scenario.tx));
                   ("blockNumber", JNum 41532017);
                   ("funded", JBool true)])
  /\ published (snd run) = [Broadcast event].
Proof.
  pose proof (funded_outcome_and_event
                (Scenario.funded_ledger (10 ^ 18) 0) NETWORK_CONFIGS
                Scenario.target "97" Scenario.secret Scenario.funder
                {| rpcUrl := "https://data-seed-prebsc-1-s1.binance.org:8545";
                   fundingAmount := "0.0025";
                   name := "BSC Testnet" |}
                (10 ^ 18)%N 2500000000000000 0%N Scenario.tx Scenario.receipt
                eq_refl eq_refl eq_refl eq_refl eq_refl eq_refl eq_refl eq_refl) as H.
  assert (Hafford : 2500000000000000 <= Z.of_N (10 ^ 18)) by (vm_compute; discriminate).
  specialize (H Hafford eq_refl eq_refl eq_refl eq_refl).
  cbv zeta in H. destruct H as (Hresponse & _ & _ & Hevent).
  split; [exact Hresponse | exact Hevent].
Defined.

(** C3, the claim as stated: in the end-to-end scenario (chain 97, funding
    amount 0.0025, custodian balance 1.0, target balance 0) the answer
    carries the confirming block number, and the one event that is
    published has no field that holds it. *)
Lemma addressFunded_event_lacks_block :
  let run := fund_address (Scenario.funded_ledger (10 ^ 18) 0) NETWORK_CONFIGS
                          (Some Scenario.secret)
                          (Scenario.request Scenario.target "97") [] in
  exists response event,
    fst run = Ok response
    /\ get_field (body response) "blockNumber"
       = Some (JNum (blockNumber Scenario.receipt))
    /\ published (snd run) = [Broadcast event]
    /\ get_field event "blockNumber" = None
    /\ forall field, get_field event field <> Some (JNum (blockNumber Scenario.receipt)).
Proof.
  cbn. eexists; eexists.
  split; [reflexivity |]. split; [reflexivity |]. split; [reflexivity |].
  split; [reflexivity |].
  intros field. cbn.
  repeat match goal with
         | |- context [String.eqb field ?k] => destruct (String.eqb field k)
         end; discriminate.
Qed.

(** ** An unconfigured service *)

Lemma funding_status_not_configured E registry envKey :
  truthy envKey = false ->
  funding_status E registry envKey [] = (Ok not_configured, []).
Proof.
  intros Hkey. unfold funding_status, funding_status_try, try_catch, ret.
  destruct envKey as [key |]; cbn in *; [| reflexivity].
  destruct (falsy key); [reflexivity | discriminate].
Qed.

(** C5, as the code has it.  With no custodial secret in the process
    configuration, a fund call makes no outbound call at all, whatever the
    request, and a request that passes the presence check, the address
    validation and the registry lookup gets the HTTP 500 "funding service
    not configured" rejection; the funding-status operation answers
    [{configured: false}], again without any outbound call. *)
Theorem unconfigured_service_reported E registry envKey :
  truthy envKey = false ->
  (forall req, snd (fund_address E registry envKey req []) = [])
  /\ (forall address chainId networkConfig,
         falsy address = false ->
         falsy chainId = false ->
         isAddress E address = true ->
         get_config registry chainId = Some networkConfig ->
         fund_address E registry envKey (mkRequest (Some address) (Some chainId)) []
         = (Ok (mkResponse 500
                  [("error",
                    JStr "Funding service not configured. Please contact administrator.")]),
            []))
  /\ funding_status E registry envKey []
     = (Ok (mkResponse 200 [("configured", JBool false);
                            ("message", JStr "Funding service not configured")]),
        []).
Proof.
  intros Hkey. split; [| split].
  - intros req. apply fund_unconfigured_silent; assumption.
  - intros address chainId networkConfig Ha Hc Hv Hcfg.
    apply (fund_not_configured _ _ _ _ _ networkConfig); assumption.
  - apply funding_status_not_configured; assumption.
Qed.

Lemma unconfigured_service_reported_witness :
  fund_address (Scenario.funded_ledger (10 ^ 18) 0) NETWORK_CONFIGS None
               (Scenario.request Scenario.target "97") []
  = (Ok (mkResponse 500
           [("error",
             JStr "Funding service not configured. Please contact administrator.")]),
     [])
  /\ funding_status (Scenario.funded_ledger (10 ^ 18) 0) NETWORK_CONFIGS None []
     = (Ok (mkResponse 200 [("configured", JBool false);
                            ("message", JStr "Funding service not configured")]),
        []).
Proof.
  pose proof (unconfigured_service_reported
                (Scenario.funded_ledger (10 ^ 18) 0) NETWORK_CONFIGS None eq_refl) as H.
  destruct H as (_ & Hfund & Hstatus).
  split; [| exact Hstatus].
  exact (Hfund Scenario.target "97"
               (OwnConfig {| rpcUrl := "https://data-seed-prebsc-1-s1.binance.org:8545";
                             fundingAmount := "0.0025";
                             name := "BSC Testnet" |})
               eq_refl eq_refl eq_refl eq_refl).
Defined.

(** C5, the claim as stated: with no custodial secret, a fund call whose
    address is malformed is answered by the address validation, which comes
    first, and not with the "not configured" rejection. *)
Lemma unconfigured_fund_reports_invalid_address :
  let run := fund_address (Scenario.funded_ledger (10 ^ 18) 0) NETWORK_CONFIGS None
                          (Scenario.request "not-an-address" "97") [] in
  fst run = Ok (mkResponse 400 [("error", JStr "Invalid Ethereum address")])
  /\ fst run
     <> Ok (mkResponse 500
              [("error",
                JStr "Funding service not configured. Please contact administrator.")]).
Proof.
  cbn. split; [reflexivity | discriminate].
Qed.

(** ** Unsupported chains *)

Lemma check_balance_unsupported_chain E registry address chainId :
  falsy address = false ->
  falsy chainId = false ->
  get_config registry chainId = None ->
  check_balance E registry (mkRequest (Some address) (Some chainId)) []
  = (Ok (unsupported_chain chainId), []).
Proof.
  intros Ha Hc Hcfg. unfold check_balance, check_balance_try, try_catch, ret; cbn.
  rewrite Ha, Hc, Hcfg. reflexivity.
Qed.

(** A chainId for which the lookup finds nothing is rejected by both
    operations with the HTTP 400 that names it, and no ledger is contacted. *)
Lemma unresolved_chain_rejected E registry envKey address chainId :
  falsy address = false ->
  falsy chainId = false ->
  isAddress E address = true ->
  get_config registry chainId = None ->
  fund_address E registry envKey (mkRequest (Some address) (Some chainId)) []
  = (Ok (mkResponse 400 [("error", JStr ("Unsupported chain ID: " ++ chainId))]), [])
  /\ check_balance E registry (mkRequest (Some address) (Some chainId)) []
     = (Ok (mkResponse 400 [("error", JStr ("Unsupported chain ID: " ++ chainId))]), []).
Proof.
  intros Ha Hc Hv Hcfg. split.
  - apply fund_unsupported_chain; assumption.
  - apply check_balance_unsupported_chain; assumption.
Qed.

(** The lookup never comes back empty for a name that every object
    inherits, whatever the registry holds. *)
Lemma inherited_name_resolves registry chainId :
  inherited chainId = true ->
  exists networkConfig, get_config registry chainId = Some networkConfig.
Proof.
  intros Hinherited. unfold get_config.
  destruct (get_field registry chainId) as [config |]; [eexists; reflexivity |].
  rewrite Hinherited. eexists; reflexivity.
Qed.

(** C6 at the chainId ["constructor"].  It is no key of the registry, yet
    the lookup finds the member every object inherits under that name, so
    neither operation answers with the HTTP 400 for an unsupported chain:
    both go on to query a ledger through a provider that has no endpoint.
    The fund call ends in the generic HTTP 500, the balance check in an
    HTTP 200 for the network ["Object"]. *)
Theorem inherited_name_passes_lookup :
  let E := Scenario.funded_ledger (10 ^ 18) 0 in
  let req := Scenario.request Scenario.target "constructor" in
  let funded := fund_address E NETWORK_CONFIGS (Some Scenario.secret) req [] in
  let checked := check_balance E NETWORK_CONFIGS req [] in
  get_field NETWORK_CONFIGS "constructor" = None
  /\ get_config NETWORK_CONFIGS "constructor" = Some (Inherited "constructor")
  /\ (exists response,
         fst funded = Ok response
         /\ status response = 500
         /\ get_field (body response) "error" = Some (JStr "Failed to fund address"))
  /\ ledger_calls (snd funded) = [LedgerGetBalance None Scenario.funder]
  /\ fst checked
     = Ok (mkResponse 200 [("success", JBool true);
                           ("address", JStr Scenario.target);
                           ("chainId", JStr "constructor");
                           ("balance", JStr "0.0");
                           ("network", JStr "Object")])
  /\ ledger_calls (snd checked) = [LedgerGetBalance None Scenario.target].
Proof.
  cbn. repeat split.
  eexists. repeat split.
Qed.

(** ** Failures inside the pipeline *)

Lemma code_is_false e c : code e <> Some c -> code_is e c = false.
Proof.
  unfold code_is. destruct (code e) as [c' |]; [| reflexivity].
  intros Hne. destruct (String.eqb_spec c' c); [subst; contradiction | reflexivity].
Qed.

(** C7.  A fund call always returns a response: whatever the request, the
    configuration and the behaviour of the library and of the ledger,
    nothing is thrown out of the handler.  When the body of its [try] block
    throws an error whose code is neither [INSUFFICIENT_FUNDS] nor
    [NETWORK_ERROR], the response is the generic HTTP 500 "Failed to fund
    address" with the message of the error as its details. *)
Theorem fund_address_never_raises E registry envKey req :
  exists response trace,
    fund_address E registry envKey req [] = (Ok response, trace)
    /\ forall e,
        fst (fund_address_try E registry envKey req []) = Throw e ->
        code e <> Some "INSUFFICIENT_FUNDS" ->
        code e <> Some "NETWORK_ERROR" ->
        response = mkResponse 500 [("error", JStr "Failed to fund address");
                                   ("details", JStr (message e))]
        /\ trace = snd (fund_address_try E registry envKey req []).
Proof.
  unfold fund_address, try_catch.
  destruct (fund_address_try E registry envKey req []) as [[response | e] trace] eqn:Htry.
  - exists response, trace. split; [reflexivity |].
    intros e He. discriminate He.
  - destruct (fund_address_catch_returns e trace) as [response Hcatch].
    exists response, trace. split; [assumption |].
    intros e' He' Hfunds Hnetwork. cbn in He'. injection He' as <-.
    unfold fund_address_catch, json, ret in Hcatch.
    rewrite (code_is_false _ _ Hfunds), (code_is_false _ _ Hnetwork) in Hcatch.
    injection Hcatch as <-. split; reflexivity.
Qed.

Lemma fund_address_never_raises_witness :
  let unknown := {| code := Some "UNKNOWN_ERROR";
                    message := "could not coalesce error" |} in
  let E := Scenario.scripted
             (fun _ address =>
                if String.eqb address Scenario.funder then Ok (10 ^ 18)%N else Ok 0%N)
             (Throw unknown) (Ok Scenario.receipt) in
  fund_address E NETWORK_CONFIGS (Some Scenario.secret)
               (Scenario.request Scenario.target "97") []
  = (Ok (mkResponse 500 [("error", JStr "Failed to fund address");
                         ("details", JStr "could not coalesce error")]),
     [LedgerGetBalance (Some "https://data-seed-prebsc-1-s1.binance.org:8545")
                       Scenario.funder;
      LedgerGetBalance (Some "https://data-seed-prebsc-1-s1.binance.org:8545")
                       Scenario.target;
      LedgerSendTransaction (Some "https://data-seed-prebsc-1-s1.binance.org:8545")
                            Scenario.funder Scenario.target 2500000000000000]).
Proof.
  intros unknown E.
  destruct (fund_address_never_raises E NETWORK_CONFIGS (Some Scenario.secret)
              (Scenario.request Scenario.target "97"))
    as (response & trace & Hrun & Hgeneric).
  destruct (Hgeneric unknown eq_refl ltac:(discriminate) ltac:(discriminate))
    as [Hresponse Htrace].
  rewrite Hrun, Hresponse, Htrace. reflexivity.
Defined.

(** ** The balance check *)

(** C9.  The balance check has no syntactic validation of the address: for
    a request with both parameters and a chain of the registry, a malformed
    address goes to the ledger's balance query as it is, that query is the
    one outbound call of the run, and when it throws, the answer is the
    generic HTTP 500 "Failed to check balance" with the error's message.
    The fund operation rejects the same request with the HTTP 400 "Invalid
    Ethereum address" and makes no outbound call. *)
Theorem check_balance_skips_address_validation
  E registry envKey address chainId config :
  falsy address = false ->
  falsy chainId = false ->
  get_field registry chainId = Some config ->
  isAddress E address = false ->
  let req := mkRequest (Some address) (Some chainId) in
  snd (check_balance E registry req []) = [LedgerGetBalance (Some (rpcUrl config)) address]
  /\ (forall e,
         getBalance E [] (Some (rpcUrl config)) address = Throw e ->
         fst (check_balance E registry req [])
         = Ok (mkResponse 500 [("error", JStr "Failed to check balance");
                               ("details", JStr (message e))]))
  /\ (forall response,
         fst (check_balance E registry req []) = Ok response -> status response <> 400)
  /\ fund_address E registry envKey req []
     = (Ok (mkResponse 400 [("error", JStr "Invalid Ethereum address")]), []).
Proof.
  intros Ha Hc Hcfg Hv req.
  assert (Hrun : check_balance E registry req []
                 = match getBalance E [] (Some (rpcUrl config)) address with
                   | Ok balance =>
                       (Ok (mkResponse 200
                              [("success", JBool true);
                               ("address", JStr address);
                               ("chainId", JStr chainId);
                               ("balance", JStr (formatEther E (Z.of_N balance)));
                               ("network", JStr (name config))]),
                        [LedgerGetBalance (Some (rpcUrl config)) address])
                   | Throw e =>
                       (Ok (mkResponse 500 [("error", JStr "Failed to check balance");
                                            ("details", JStr (message e))]),
                        [LedgerGetBalance (Some (rpcUrl config)) address])
                   end).
  { subst req.
    unfold check_balance, check_balance_try, check_balance_catch, get_config,
      provider_getBalance, try_catch, bind, outbound, json, ret; cbn.
    rewrite Ha, Hc, Hcfg; cbn.
    destruct (getBalance E [] (Some (rpcUrl config)) address); reflexivity. }
  rewrite Hrun. repeat split.
  - destruct (getBalance E [] (Some (rpcUrl config)) address); reflexivity.
  - intros e ->. reflexivity.
  - intros response.
    destruct (getBalance E [] (Some (rpcUrl config)) address); cbn;
      intros [= <-]; cbn; discriminate.
  - apply fund_invalid_address; assumption.
Qed.

Lemma check_balance_skips_address_validation_witness :
  let unconfigured := {| code := Some "UNCONFIGURED_NAME";
                         message := "unconfigured name" |} in
  let E := Scenario.scripted
             (fun _ address =>
                if Scenario.isAddress address then Ok 0%N else Throw unconfigured)
             (Ok Scenario.tx) (Ok Scenario.receipt) in
  let req := Scenario.request "not-an-address" "97" in
  check_balance E NETWORK_CONFIGS req []
  = (Ok (mkResponse 500 [("error", JStr "Failed to check balance");
                         ("details", JStr "unconfigured name")]),
     [LedgerGetBalance (Some "https://data-seed-prebsc-1-s1.binance.org:8545")
                       "not-an-address"])
  /\ fund_address E NETWORK_CONFIGS (Some Scenario.secret) req []
     = (Ok (mkResponse 400 [("error", JStr "Invalid Ethereum address")]), []).
Proof.
  intros unconfigured E req.
  destruct (check_balance_skips_address_validation
              E NETWORK_CONFIGS (Some Scenario.secret) "not-an-address" "97"
              {| rpcUrl := "https://data-seed-prebsc-1-s1.binance.org:8545";
                 fundingAmount := "0.0025";
                 name := "BSC Testnet" |}
              eq_refl eq_refl eq_refl eq_refl)
    as (Htrace & Hfailure & _ & Hfund).
  split; [| exact Hfund].
  apply injective_projections; [exact (Hfailure unconfigured eq_refl) | exact Htrace].
Defined.

(** ** The status aggregation *)

Lemma get_field_set_same {A : Type} (o : list (string * A)) k v :
  get_field (set_field o k v) k = Some v.
Proof.
  induction o as [| [k' v'] rest IH]; cbn.
  - rewrite String.eqb_refl. reflexivity.
  - destruct (String.eqb k k') eqn:Hk; cbn; rewrite Hk; [reflexivity | assumption].
Qed.

Lemma get_field_set_other {A : Type} (o : list (string * A)) k k' v :
  k' <> k ->
  get_field (set_field o k v) k' = get_field o k'.
Proof.
  intros Hne. induction o as [| [k0 v0] rest IH]; cbn.
  - destruct (String.eqb_spec k' k); [contradiction | reflexivity].
  - destruct (String.eqb_spec k k0) as [-> | Hk]; cbn.
    + destruct (String.eqb_spec k' k0); [contradiction | reflexivity].
    + destruct (String.eqb k' k0); [reflexivity | assumption].
Qed.

Lemma network_status_returns E funderAddress config tr :
  exists entry,
    network_status E funderAddress config tr
    = (Ok entry, tr ++ [LedgerGetBalance (Some (rpcUrl config)) funderAddress])
    /\ network_entry E tr funderAddress config entry.
Proof.
  unfold network_status, network_entry, provider_getBalance, try_catch, bind, outbound,
    pure_call, ret.
  destruct (getBalance E tr (Some (rpcUrl config)) funderAddress) as [balance | e].
  - destruct (parseEther E (Some (fundingAmount config))) as [amount | e'].
    + eexists. split; [reflexivity |]. split.
      * intros balance' amount' [= <-] [= <-]. reflexivity.
      * intros e [=].
    + eexists. split; [reflexivity |]. split.
      * intros balance' amount' _ [=].
      * intros e [=].
  - eexists. split; [reflexivity |]. split.
    + intros balance amount [=].
    + intros e' _. reflexivity.
Qed.

(** The loop never stops early: it makes one query per network, and the
    entry of each network is the one its own turn assigned, unless a later
    network has the same chainId. *)
Lemma check_networks_returns E funderAddress entries :
  forall balances tr,
  exists balances',
    check_networks E funderAddress entries balances tr
    = (Ok balances', tr ++ status_queries funderAddress entries)
    /\ (forall k, ~ In k (map fst entries) -> get_field balances' k = get_field balances k)
    /\ (forall pre chainId config post,
           entries = pre ++ (chainId, config) :: post ->
           ~ In chainId (map fst post) ->
           exists entry,
             get_field balances' chainId = Some entry
             /\ network_entry E (tr ++ status_queries funderAddress pre)
                              funderAddress config entry).
Proof.
  induction entries as [| [chainId0 config0] rest IH]; intros balances tr.
  - exists balances. cbn. rewrite app_nil_r. split; [reflexivity |]. split.
    + reflexivity.
    + intros pre chainId config post Hsplit. destruct pre; discriminate Hsplit.
  - destruct (network_status_returns E funderAddress config0 tr) as (entry0 & Hturn & Hentry0).
    destruct (IH (set_field balances chainId0 entry0)
                 (tr ++ [LedgerGetBalance (Some (rpcUrl config0)) funderAddress]))
      as (balances' & Hrun & Hkeep & Hrest).
    exists balances'. split; [| split].
    + cbn. unfold bind. rewrite Hturn, Hrun. rewrite <- app_assoc. reflexivity.
    + intros k Hk. cbn in Hk.
      rewrite Hkeep by tauto.
      apply get_field_set_other. intros ->. tauto.
    + intros pre chainId config post Hsplit Hlast.
      destruct pre as [| first pre'].
      * cbn in Hsplit. injection Hsplit as <- <- <-.
        exists entry0. split.
        -- rewrite Hkeep by assumption. apply get_field_set_same.
        -- cbn. rewrite app_nil_r. assumption.
      * cbn in Hsplit. injection Hsplit as <- Hsplit.
        destruct (Hrest pre' chainId config post Hsplit Hlast) as (entry & Hget & Hentry).
        exists entry. split; [assumption |].
        cbn. rewrite <- app_assoc in Hentry. assumption.
Qed.

(** C8.  With the custodial secret configured, the status aggregation
    answers HTTP 200 with [configured: true] after exactly one balance
    query per network of the registry, in the order of the registry.  The
    entry of each network depends on its own query alone: it is the full
    [{network, balance, fundingAmount, canFund}] report when that query
    returns, and [{network, error}] when it throws, whatever happened to
    the queries of the other networks. *)
Theorem funding_status_isolates_failures E registry key funderAddress :
  falsy key = false ->
  Wallet E key = Ok funderAddress ->
  NoDup (map fst registry) ->
  Forall (fun entry =>
            exists amount, parseEther E (Some (fundingAmount (snd entry))) = Ok amount)
         registry ->
  exists balances,
    funding_status E registry (Some key) []
    = (Ok (mkResponse 200 [("configured", JBool true);
                           ("funderAddress", JStr funderAddress);
                           ("balances", JObj balances)]),
       status_queries funderAddress registry)
    /\ forall pre chainId config post,
        registry = pre ++ (chainId, config) :: post ->
        let answer := getBalance E (status_queries funderAddress pre)
                                 (Some (rpcUrl config)) funderAddress in
        (forall balance,
            answer = Ok balance ->
            exists amount,
              parseEther E (Some (fundingAmount config)) = Ok amount
              /\ get_field balances chainId
                 = Some (JObj [("network", JStr (name config));
                               ("balance", JStr (formatEther E (Z.of_N balance)));
                               ("fundingAmount", JStr (fundingAmount config));
                               ("canFund", JBool (Z.of_N balance >=? amount))]))
        /\ (forall e,
               answer = Throw e ->
               get_field balances chainId
               = Some (JObj [("network", JStr (name config));
                             ("error", JStr "Failed to check balance")])).
Proof.
  intros Hkey Hwallet Hdistinct Hamounts.
  destruct (check_networks_returns E funderAddress registry [] [])
    as (balances & Hrun & _ & Hentries).
  exists balances. split.
  - unfold funding_status, funding_status_try, try_catch, bind, pure_call, json, ret.
    rewrite Hkey, Hwallet, Hrun. reflexivity.
  - intros pre chainId config post Hsplit answer.
    assert (Hlast : ~ In chainId (map fst post)).
    { rewrite Hsplit, map_app in Hdistinct. cbn in Hdistinct.
      apply NoDup_remove_2 in Hdistinct. rewrite in_app_iff in Hdistinct. tauto. }
    destruct (Hentries pre chainId config post Hsplit Hlast)
      as (entry & Hget & Hfull & Hfailed).
    cbn in Hfull, Hfailed. split.
    + intros balance Hanswer.
      assert (Hamount : exists amount,
                 parseEther E (Some (fundingAmount config)) = Ok amount).
      { rewrite Forall_forall in Hamounts.
        apply (Hamounts (chainId, config)).
        rewrite Hsplit, in_app_iff. right; left; reflexivity. }
      destruct Hamount as [amount Hamount].
      exists amount. split; [assumption |].
      rewrite Hget, (Hfull balance amount Hanswer Hamount). reflexivity.
    + intros e Hanswer. rewrite Hget, (Hfailed e Hanswer). reflexivity.
Qed.

Lemma funding_status_isolates_failures_witness :
  let unreachable := {| code := Some "TIMEOUT"; message := "request timeout" |} in
  let E := Scenario.scripted
             (fun url _ =>
                match url with
                | Some "https://testnet.aurora.dev" => Ok (10 ^ 18)%N
                | _ => Throw unreachable
                end)
             (Ok Scenario.tx) (Ok Scenario.receipt) in
  exists balances,
    funding_status E NETWORK_CONFIGS (Some Scenario.secret) []
    = (Ok (mkResponse 200 [("configured", JBool true);
                           ("funderAddress", JStr Scenario.funder);
                           ("balances", JObj balances)]),
       [LedgerGetBalance (Some "https://data-seed-prebsc-1-s1.binance.org:8545")
                         Scenario.funder;
        LedgerGetBalance (Some "https://testnet.aurora.dev") Scenario.funder])
    /\ get_field balances "97"
       = Some (JObj [("network", JStr "BSC Testnet");
                     ("error", JStr "Failed to check balance")])
    /\ get_field balances "1313161555"
       = Some (JObj [("network", JStr "Aurora Testnet");
                     ("balance", JStr "1.0");
                     ("fundingAmount", JStr "0.0025");
                     ("canFund", JBool true)]).
Proof.
  intros unreachable E.
  assert (Hdistinct : NoDup (map fst NETWORK_CONFIGS)).
  { repeat constructor; cbn; intuition discriminate. }
  assert (Hamounts :
            Forall (fun entry =>
                      exists amount,
                        parseEther E (Some (fundingAmount (snd entry))) = Ok amount)
                   NETWORK_CONFIGS).
  { repeat constructor; eexists; reflexivity. }
  destruct (funding_status_isolates_failures E NETWORK_CONFIGS Scenario.secret
              Scenario.funder eq_refl eq_refl Hdistinct Hamounts)
    as (balances & Hrun & Hentries).
  exists balances. split; [exact Hrun |]. split.
  - destruct (Hentries [] "97"
                {| rpcUrl := "https://data-seed-prebsc-1-s1.binance.org:8545";
                   fundingAmount := "0.0025";
                   name := "BSC Testnet" |}
                [("1313161555", {| rpcUrl := "https://testnet.aurora.dev";
                                   fundingAmount := "0.0025";
                                   name := "Aurora Testnet" |})]
                eq_refl) as [_ Hfailed].
    exact (Hfailed unreachable eq_refl).
  - destruct (Hentries
                [("97", {| rpcUrl := "https://data-seed-prebsc-1-s1.binance.org:8545";
                           fundingAmount := "0.0025";
                           name := "BSC Testnet" |})]
                "1313161555"
                {| rpcUrl := "https://testnet.aurora.dev";
                   fundingAmount := "0.0025";
                   name := "Aurora Testnet" |}
                [] eq_refl) as [Hfull _].
    destruct (Hfull (10 ^ 18)%N eq_refl) as (amount & Hamount & Hget).
    cbn in Hamount. injection Hamount as <-.
    exact Hget.
Defined.

(** ** What a fund call never does *)

Ltac comparisons :=
  repeat match goal with
         | H : (_ <? _) = false |- _ => apply Z.ltb_ge in H
         | H : (_ <? _) = true |- _ => apply Z.ltb_lt in H
         | H : (_ >=? _) = false |- _ => rewrite Z.geb_leb in H; apply Z.leb_gt in H
         | H : (_ >=? _) = true |- _ => rewrite Z.geb_leb in H; apply Z.leb_le in H
         | H : negb _ = false |- _ => apply negb_false_iff in H
         | H : negb _ = true |- _ => apply negb_true_iff in H
         | H : (_ || _) = false |- _ => apply orb_false_elim in H; destruct H
         end.

(** X1.  An event is published by a fund call only when it answers that the
    address was funded: such a run publishes one [addressFunded] event with
    the transaction hash of the answer, every other run publishes nothing
    and does not answer [funded: true]. *)
Theorem fund_publishes_only_when_funded E registry envKey req :
  let run := fund_address E registry envKey req [] in
  (published (snd run) = []
   /\ forall response,
       fst run = Ok response ->
       get_field (body response) "funded" <> Some (JBool true))
  \/ (exists response event,
         fst run = Ok response
         /\ status response = 200
         /\ get_field (body response) "funded" = Some (JBool true)
         /\ published (snd run) = [Broadcast event]
         /\ get_field event "type" = Some (JStr "addressFunded")
         /\ get_field event "address" = option_map JStr (req_address req)
         /\ get_field event "txHash" = get_field (body response) "txHash"
         /\ List.length (transfers (snd run)) = 1%nat).
Proof.
  all_outcomes;
    try (left; split; [reflexivity | intros response [= <-]; cbn; discriminate]).
  right. eexists; eexists. repeat split.
Qed.

(** The one event of a trace that is the given transfer. *)
Ltac the_transfer H :=
  cbn; intros H;
  repeat (destruct H as [H | H]; try discriminate H);
  try contradiction;
  injection H as <- <- <- <-.

(** X2.  Whatever transfer a fund call submits is the configured one: it goes
    to the address of the request, which passed the validation, through the
    endpoint of the network the chainId resolves to, from the wallet of the
    configured secret, and its value is the funding amount of that network. *)
Theorem fund_transfer_is_the_configured_one
  E registry envKey req url from to value :
  In (LedgerSendTransaction url from to value)
     (snd (fund_address E registry envKey req [])) ->
  req_address req = Some to
  /\ isAddress E to = true
  /\ exists chainId networkConfig key,
      req_chainId req = Some chainId
      /\ get_config registry chainId = Some networkConfig
      /\ url = rpcUrl_of networkConfig
      /\ envKey = Some key
      /\ Wallet E key = Ok from
      /\ parseEther E (fundingAmount_of networkConfig) = Ok value.
Proof.
  all_outcomes; the_transfer H; comparisons;
    (split; [reflexivity | split; [assumption |]]);
    do 3 eexists; repeat split; eassumption.
Qed.

Lemma fund_transfer_is_the_configured_one_witness :
  req_address (Scenario.request Scenario.target "97") = Some Scenario.target
  /\ Scenario.isAddress Scenario.target = true
  /\ exists chainId networkConfig key,
      Some "97" = Some chainId
      /\ get_config NETWORK_CONFIGS chainId = Some networkConfig
      /\ Some "https://data-seed-prebsc-1-s1.binance.org:8545" = rpcUrl_of networkConfig
      /\ Some Scenario.secret = Some key
      /\ Scenario.Wallet key = Ok Scenario.funder
      /\ Scenario.parseEther (fundingAmount_of networkConfig) = Ok 2500000000000000.
Proof.
  apply (fund_transfer_is_the_configured_one
           (Scenario.funded_ledger (10 ^ 18) 0) NETWORK_CONFIGS (Some Scenario.secret)
           (Scenario.request Scenario.target "97")
           (Some "https://data-seed-prebsc-1-s1.binance.org:8545")
           Scenario.funder Scenario.target 2500000000000000).
  cbn. right; right; left; reflexivity.
Defined.

(** X3.  A fund call submits a transfer only after it saw both balances: the
    custodian's, at least the value it sends, and then the target's, below
    the threshold and so below half of that value. *)
Theorem fund_transfer_follows_both_checks
  E registry envKey req url from to value :
  In (LedgerSendTransaction url from to value)
     (snd (fund_address E registry envKey req [])) ->
  exists funderBalance addressBalance,
    getBalance E [] url from = Ok funderBalance
    /\ value <= Z.of_N funderBalance
    /\ getBalance E [LedgerGetBalance url from] url to = Ok addressBalance
    /\ Z.of_N addressBalance < Z.quot value 2
    /\ 2 * Z.of_N addressBalance < value.
Proof.
  assert (Hhalf : forall (b : N) v, Z.of_N b < Z.quot v 2 -> 2 * Z.of_N b < v).
  { intros b v Hlt. pose proof (N2Z.is_nonneg b) as Hb.
    destruct (quot_two_bounds v) as [Hpos Hneg].
    destruct (Z.le_ge_cases 0 v) as [Hv | Hv];
      [specialize (Hpos Hv) | specialize (Hneg Hv)]; lia. }
  all_outcomes; the_transfer H; comparisons;
    do 2 eexists; repeat split; try eassumption; apply Hhalf; assumption.
Qed.

Lemma fund_transfer_follows_both_checks_witness :
  exists funderBalance addressBalance,
    getBalance (Scenario.funded_ledger (10 ^ 18) 0) []
               (Some "https://data-seed-prebsc-1-s1.binance.org:8545") Scenario.funder
    = Ok funderBalance
    /\ 2500000000000000 <= Z.of_N funderBalance
    /\ getBalance (Scenario.funded_ledger (10 ^ 18) 0)
                  [LedgerGetBalance (Some "https://data-seed-prebsc-1-s1.binance.org:8545")
                                    Scenario.funder]
                  (Some "https://data-seed-prebsc-1-s1.binance.org:8545") Scenario.target
       = Ok addressBalance
    /\ Z.of_N addressBalance < Z.quot 2500000000000000 2
    /\ 2 * Z.of_N addressBalance < 2500000000000000.
Proof.
  apply (fund_transfer_follows_both_checks
           (Scenario.funded_ledger (10 ^ 18) 0) NETWORK_CONFIGS (Some Scenario.secret)
           (Scenario.request Scenario.target "97")
           (Some "https://data-seed-prebsc-1-s1.binance.org:8545")
           Scenario.funder Scenario.target 2500000000000000).
  cbn. right; right; left; reflexivity.
Defined.

(** X4.  A fund call answers with one of three status codes; an HTTP 400 is
    given before any outbound call, and an HTTP 200 only after the balance
    of the custodian and then that of the requested address were queried. *)
Theorem fund_status_and_ledger_contact E registry envKey req :
  let run := fund_address E registry envKey req [] in
  exists response,
    fst run = Ok response
    /\ (status response = 200 \/ status response = 400 \/ status response = 500)
    /\ (status response = 400 -> snd run = [])
    /\ (status response = 200 ->
        exists url funder address rest,
          req_address req = Some address
          /\ snd run = LedgerGetBalance url funder :: LedgerGetBalance url address :: rest).
Proof.
  all_outcomes; eexists; (split; [reflexivity |]); cbn;
    (split; [auto |]);
    (split; [intros; try reflexivity; discriminate |]);
    intros; try discriminate; do 4 eexists; split; reflexivity.
Qed.

(** X5.  The two error codes the handler knows.  When the body of the [try]
    block throws an error with code [INSUFFICIENT_FUNDS], or else with code
    [NETWORK_ERROR], the answer is the HTTP 500 with the message of that
    code and without the details of the error; whatever is thrown, the run
    ends with the calls made before the throw and publishes nothing. *)
Theorem fund_recognised_errors E registry envKey req e :
  fst (fund_address_try E registry envKey req []) = Throw e ->
  let run := fund_address E registry envKey req [] in
  (code e = Some "INSUFFICIENT_FUNDS" ->
   fst run = Ok (mkResponse 500 [("error", JStr "Funder wallet has insufficient balance")]))
  /\ (code e = Some "NETWORK_ERROR" ->
      fst run
      = Ok (mkResponse 500 [("error", JStr "Network connection error. Please try again.")]))
  /\ snd run = snd (fund_address_try E registry envKey req [])
  /\ published (snd run) = [].
Proof.
  intros Hthrow run.
  assert (Hpublished : published (snd (fund_address_try E registry envKey req [])) = []).
  { revert Hthrow. unfold fund_address_try, fund_transfer, provider_getBalance,
      wallet_sendTransaction, tx_wait, broadcast, json, bind, ret, pure_call, outbound.
    cbn. repeat (next_outcome; cbn); intros Hthrow; try discriminate Hthrow; reflexivity. }
  subst run. unfold fund_address, try_catch.
  destruct (fund_address_try E registry envKey req []) as [[response | e'] trace];
    cbn in Hthrow; [discriminate Hthrow | injection Hthrow as ->].
  cbn in Hpublished.
  rewrite (fund_address_catch_trace e trace).
  unfold fund_address_catch, json, ret, code_is.
  repeat split; try assumption.
  - intros ->. reflexivity.
  - intros ->. reflexivity.
Qed.

Lemma fund_recognised_errors_witness :
  let refused := {| code := Some "INSUFFICIENT_FUNDS";
                    message := "insufficient funds for intrinsic transaction cost" |} in
  let E := Scenario.scripted
             (fun _ address =>
                if String.eqb address Scenario.funder then Ok (10 ^ 18)%N else Ok 0%N)
             (Throw refused) (Ok Scenario.receipt) in
  let run := fund_address E NETWORK_CONFIGS (Some Scenario.secret)
                          (Scenario.request Scenario.target "97") [] in
  fst run = Ok (mkResponse 500 [("error", JStr "Funder wallet has insufficient balance")])
  /\ published (snd run) = [].
Proof.
  intros refused E run.
  destruct (fund_recognised_errors E NETWORK_CONFIGS (Some Scenario.secret)
              (Scenario.request Scenario.target "97") refused eq_refl)
    as (Hfunds & _ & _ & Hpublished).
  split; [exact (Hfunds eq_refl) | exact Hpublished].
Defined.

(** ** The balance check and the status aggregation are read-only *)

(** X6.  The balance check answers with one of three status codes, an HTTP 400
    before any outbound call; it makes at most one outbound call, which is
    a balance query for the address of the request, and it never submits a
    transfer or publishes an event. *)
Theorem check_balance_is_read_only E registry req :
  let run := check_balance E registry req [] in
  exists response,
    fst run = Ok response
    /\ (status response = 200 \/ status response = 400 \/ status response = 500)
    /\ (status response = 400 -> snd run = [])
    /\ (snd run = []
        \/ exists url address,
            req_address req = Some address /\ snd run = [LedgerGetBalance url address])
    /\ transfers (snd run) = []
    /\ published (snd run) = [].
Proof.
  all_outcomes; eexists; (split; [reflexivity |]); cbn;
    (split; [auto |]);
    (split; [intros; try reflexivity; discriminate |]);
    (split; [| split; reflexivity]);
    try (left; reflexivity);
    right; do 2 eexists; split; reflexivity.
Qed.

(** X7.  For a chain of the registry, the balance check queries the endpoint of
    that chain for the address of the request, once, and when the ledger
    answers, the HTTP 200 carries the address and the chainId as they came,
    the balance the ledger gave, printed in the native unit, and the name
    of the network. *)
Theorem check_balance_reports_ledger_balance
  E registry address chainId config balance :
  falsy address = false ->
  falsy chainId = false ->
  get_field registry chainId = Some config ->
  getBalance E [] (Some (rpcUrl config)) address = Ok balance ->
  check_balance E registry (mkRequest (Some address) (Some chainId)) []
  = (Ok (mkResponse 200 [("success", JBool true);
                         ("address", JStr address);
                         ("chainId", JStr chainId);
                         ("balance", JStr (formatEther E (Z.of_N balance)));
                         ("network", JStr (name config))]),
     [LedgerGetBalance (Some (rpcUrl config)) address]).
Proof.
  intros Ha Hc Hcfg Hbalance.
  unfold check_balance, check_balance_try, get_config, provider_getBalance,
    try_catch, bind, outbound, json, ret; cbn.
  rewrite Ha, Hc, Hcfg; cbn. rewrite Hbalance. reflexivity.
Qed.

Lemma check_balance_reports_ledger_balance_witness :
  check_balance (Scenario.funded_ledger (10 ^ 18) 1250000000000000) NETWORK_CONFIGS
                (Scenario.request Scenario.target "1313161555") []
  = (Ok (mkResponse 200 [("success", JBool true);
                         ("address", JStr Scenario.target);
                         ("chainId", JStr "1313161555");
                         ("balance", JStr "0.00125");
                         ("network", JStr "Aurora Testnet")]),
     [LedgerGetBalance (Some "https://testnet.aurora.dev") Scenario.target]).
Proof.
  exact (check_balance_reports_ledger_balance
           (Scenario.funded_ledger (10 ^ 18) 1250000000000000) NETWORK_CONFIGS
           Scenario.target "1313161555"
           {| rpcUrl := "https://testnet.aurora.dev";
              fundingAmount := "0.0025";
              name := "Aurora Testnet" |}
           1250000000000000%N eq_refl eq_refl eq_refl eq_refl).
Defined.

Lemma status_queries_read_only funderAddress entries :
  transfers (status_queries funderAddress entries) = []
  /\ published (status_queries funderAddress entries) = [].
Proof.
  induction entries as [| entry rest [IHt IHp]]; split; cbn; auto.
Qed.

Lemma last_entry_of (entries : list (string * NetworkConfig)) chainId :
  In chainId (map fst entries) ->
  exists pre config post,
    entries = pre ++ (chainId, config) :: post /\ ~ In chainId (map fst post).
Proof.
  induction entries as [| [k c] rest IH]; cbn; [contradiction |].
  intros Hin.
  destruct (in_dec string_dec chainId (map fst rest)) as [Hrest | Hrest].
  - destruct (IH Hrest) as (pre & config & post & -> & Hlast).
    exists ((k, c) :: pre), config, post. split; [reflexivity | assumption].
  - destruct Hin as [-> | Hin]; [| contradiction].
    exists [], c, rest. split; [reflexivity | assumption].
Qed.

(** X8.  The status aggregation has three outcomes.  Without a secret it
    answers [{configured: false}]; with a secret that is no key of a wallet
    it answers the HTTP 500 "Failed to check funding status"; in both cases
    no ledger is contacted.  Otherwise it answers the HTTP 200 whose
    [balances] have an entry for each chainId of the registry and for
    nothing else, after one balance query per network.  In no case does it
    submit a transfer or publish an event. *)
Theorem funding_status_outcomes E registry envKey :
  let run := funding_status E registry envKey [] in
  transfers (snd run) = []
  /\ published (snd run) = []
  /\ ((truthy envKey = false /\ run = (Ok not_configured, []))
      \/ (exists key e,
             envKey = Some key /\ falsy key = false /\ Wallet E key = Throw e
             /\ run = (Ok (mkResponse 500 [("error", JStr "Failed to check funding status")]),
                       []))
      \/ (exists key funderAddress balances,
             envKey = Some key /\ falsy key = false /\ Wallet E key = Ok funderAddress
             /\ run = (Ok (mkResponse 200 [("configured", JBool true);
                                           ("funderAddress", JStr funderAddress);
                                           ("balances", JObj balances)]),
                       status_queries funderAddress registry)
             /\ forall chainId,
                 In chainId (map fst registry)
                 <-> exists entry, get_field balances chainId = Some entry)).
Proof.
  intros run. subst run.
  unfold funding_status, funding_status_try, try_catch, bind, pure_call, json, ret.
  destruct envKey as [key |]; cbn; [| repeat split; left; split; reflexivity].
  destruct (falsy key) eqn:Hkey; cbn; [repeat split; left; split; reflexivity |].
  destruct (Wallet E key) as [funderAddress | e] eqn:Hwallet.
  - destruct (check_networks_returns E funderAddress registry [] [])
      as (balances & Hrun & Hkeep & Hentries).
    rewrite Hrun; cbn.
    destruct (status_queries_read_only funderAddress registry) as [Ht Hp].
    split; [assumption | split; [assumption |]].
    right; right. exists key, funderAddress, balances.
    do 4 (split; [reflexivity || assumption |]).
    intros chainId. split.
    + intros Hin.
      destruct (last_entry_of registry chainId Hin) as (pre & config & post & Hsplit & Hlast).
      destruct (Hentries pre chainId config post Hsplit Hlast) as (entry & Hget & _).
      exists entry. assumption.
    + intros [entry Hget].
      destruct (in_dec string_dec chainId (map fst registry)) as [Hin | Hout];
        [assumption |].
      rewrite (Hkeep chainId Hout) in Hget. discriminate Hget.
  - cbn. do 2 (split; [reflexivity |]).
    right; left. exists key, e. do 3 (split; [reflexivity || assumption |]). reflexivity.
Qed.

Lemma get_field_of_distinct (entries : list (string * NetworkConfig)) pre chainId config post :
  NoDup (map fst entries) ->
  entries = pre ++ (chainId, config) :: post ->
  get_field entries chainId = Some config.
Proof.
  intros Hdistinct ->. induction pre as [| [k c] pre IH]; cbn.
  - rewrite String.eqb_refl. reflexivity.
  - cbn in Hdistinct. inversion Hdistinct as [| ? ? Hk Hrest]; subst.
    destruct (String.eqb_spec chainId k) as [-> | Hne].
    + exfalso. apply Hk. rewrite map_app, in_app_iff. right; left; reflexivity.
    + apply IH. assumption.
Qed.

(** X9.  The [canFund] flag of the status aggregation agrees with the
    affordability check of the fund operation.  When both see the same
    balance of the custodian on a network, [canFund] is false exactly when
    a fund call for that network is rejected with the HTTP 500
    "insufficient balance". *)
Theorem canFund_agrees_with_fund
  E registry key funderAddress pre chainId config post amount balance address :
  falsy key = false ->
  Wallet E key = Ok funderAddress ->
  NoDup (map fst registry) ->
  registry = pre ++ (chainId, config) :: post ->
  parseEther E (Some (fundingAmount config)) = Ok amount ->
  getBalance E (status_queries funderAddress pre) (Some (rpcUrl config)) funderAddress
  = Ok balance ->
  getBalance E [] (Some (rpcUrl config)) funderAddress = Ok balance ->
  falsy address = false ->
  falsy chainId = false ->
  isAddress E address = true ->
  exists balances canFund,
    fst (funding_status E registry (Some key) [])
    = Ok (mkResponse 200 [("configured", JBool true);
                          ("funderAddress", JStr funderAddress);
                          ("balances", JObj balances)])
    /\ get_field balances chainId
       = Some (JObj [("network", JStr (name config));
                     ("balance", JStr (formatEther E (Z.of_N balance)));
                     ("fundingAmount", JStr (fundingAmount config));
                     ("canFund", JBool canFund)])
    /\ (canFund = false
        <-> fst (fund_address E registry (Some key)
                              (mkRequest (Some address) (Some chainId)) [])
            = Ok (mkResponse 500
                    [("error",
                      JStr "Funding service temporarily unavailable. Insufficient balance.")])).
Proof.
  intros Hkey Hwallet Hdistinct Hsplit Hamount Hstatus Hfund Ha Hc Hv.
  destruct (check_networks_returns E funderAddress registry [] [])
    as (balances & Hrun & _ & Hentries).
  assert (Hlast : ~ In chainId (map fst post)).
  { rewrite Hsplit, map_app in Hdistinct. cbn in Hdistinct.
    apply NoDup_remove_2 in Hdistinct. rewrite in_app_iff in Hdistinct. tauto. }
  destruct (Hentries pre chainId config post Hsplit Hlast) as (entry & Hget & Hfull & _).
  cbn in Hfull. specialize (Hfull balance amount Hstatus Hamount). subst entry.
  assert (Hcfg : get_config registry chainId = Some (OwnConfig config)).
  { unfold get_config.
    rewrite (get_field_of_distinct registry pre chainId config post Hdistinct Hsplit).
    reflexivity. }
  exists balances, (Z.of_N balance >=? amount). split; [| split].
  - unfold funding_status, funding_status_try, try_catch, bind, pure_call, json, ret.
    rewrite Hkey, Hwallet, Hrun. reflexivity.
  - assumption.
  - split.
    + intros Hflag. rewrite Z.geb_leb in Hflag. apply Z.leb_gt in Hflag.
      rewrite (fund_underfunded E registry address chainId key funderAddress
                 (OwnConfig config) Ha Hc Hv Hcfg Hkey Hwallet balance amount
                 Hfund Hamount Hflag).
      reflexivity.
    + intros Hrejected.
      destruct (Z.of_N balance >=? amount) eqn:Hflag; [| reflexivity].
      exfalso. revert Hrejected.
      unfold fund_address.
      rewrite (fund_reaches_transfer E registry address chainId key (OwnConfig config)
                 Ha Hc Hv Hcfg Hkey).
      unfold fund_transfer, fund_address_catch, provider_getBalance,
        wallet_sendTransaction, tx_wait, broadcast, json, try_catch, bind, ret,
        pure_call, outbound; cbn.
      rewrite Hwallet, Hfund, Hamount; cbn.
      rewrite Z.geb_leb in Hflag. apply Z.leb_le in Hflag.
      rewrite (ltb_false _ _ Hflag).
      repeat (next_outcome; cbn); discriminate.
Qed.

Lemma canFund_agrees_with_fund_witness :
  let E := Scenario.funded_ledger 1000000000000000 0 in
  exists balances canFund,
    fst (funding_status E NETWORK_CONFIGS (Some Scenario.secret) [])
    = Ok (mkResponse 200 [("configured", JBool true);
                          ("funderAddress", JStr Scenario.funder);
                          ("balances", JObj balances)])
    /\ get_field balances "97"
       = Some (JObj [("network", JStr "BSC Testnet");
                     ("balance", JStr "0.001");
                     ("fundingAmount", JStr "0.0025");
                     ("canFund", JBool canFund)])
    /\ (canFund = false
        <-> fst (fund_address E NETWORK_CONFIGS (Some Scenario.secret)
                              (Scenario.request Scenario.target "97") [])
            = Ok (mkResponse 500
                    [("error",
                      JStr "Funding service temporarily unavailable. Insufficient balance.")])).
Proof.
  intros E.
  assert (Hdistinct : NoDup (map fst NETWORK_CONFIGS)).
  { repeat constructor; cbn; intuition discriminate. }
  exact (canFund_agrees_with_fund E NETWORK_CONFIGS Scenario.secret Scenario.funder
           [] "97"
           {| rpcUrl := "https://data-seed-prebsc-1-s1.binance.org:8545";
              fundingAmount := "0.0025";
              name := "BSC Testnet" |}
           [("1313161555", {| rpcUrl := "https://testnet.aurora.dev";
                              fundingAmount := "0.0025";
                              name := "Aurora Testnet" |})]
           2500000000000000 1000000000000000%N Scenario.target
           eq_refl eq_refl Hdistinct eq_refl eq_refl eq_refl eq_refl
           eq_refl eq_refl eq_refl).
Defined.

(** ** The configuration store *)

Lemma store_get_set_same configurations k v :
  k <> "__proto__" ->
  store_get (store_set configurations k v) k = Some (Data v).
Proof.
  intros Hk. unfold store_set, store_get.
  destruct (String.eqb_spec k "__proto__"); [contradiction |]. cbn.
  rewrite get_field_set_same. reflexivity.
Qed.

Lemma store_get_set_other configurations k v k' :
  k <> "__proto__" ->
  k' <> k ->
  store_get (store_set configurations k v) k' = store_get configurations k'.
Proof.
  intros Hk Hne. unfold store_set, store_get.
  destruct (String.eqb_spec k "__proto__"); [contradiction |]. cbn.
  rewrite get_field_set_other by assumption. reflexivity.
Qed.

Lemma config_post_accepted configurations chatId config tr :
  falsy chatId = false ->
  json_truthy config = true ->
  config_post configurations (Some chatId) (Some config) tr
  = (Ok (mkResponse 200
           [("message", JStr "Configuration has been successfully saved!");
            ("data",
             property_json (store_get (store_set configurations chatId config) chatId))],
         store_set configurations chatId config),
     tr ++ [Broadcast [("type", JStr "configUpdated");
                       ("chatId", JStr chatId);
                       ("config", config)]]).
Proof.
  intros Hc Hv. unfold config_post, broadcast, bind, ret.
  rewrite Hc, Hv. reflexivity.
Qed.

Lemma config_post_rejected configurations chatId config tr :
  truthy chatId && json_present config = false ->
  config_post configurations chatId config tr
  = (Ok (mkResponse 400 [("message", JStr "chatId and config are required.")],
         configurations),
     tr).
Proof.
  unfold config_post, ret.
  destruct chatId as [chatId |], config as [config |]; cbn; try reflexivity.
  destruct (falsy chatId), (json_truthy config); cbn; intros H;
    try reflexivity; discriminate H.
Qed.

(** A request to [POST /config] is either rejected or accepted, by its
    two fields alone. *)
Lemma config_post_cases configurations chatId config tr :
  (truthy chatId && json_present config = false
   /\ config_post configurations chatId config tr
      = (Ok (mkResponse 400 [("message", JStr "chatId and config are required.")],
             configurations),
         tr))
  \/ (exists id value response event,
         chatId = Some id /\ config = Some value
         /\ falsy id = false /\ json_truthy value = true
         /\ config_post configurations chatId config tr
            = (Ok (response, store_set configurations id value), tr ++ [Broadcast event])).
Proof.
  destruct (truthy chatId && json_present config) eqn:Hpresent.
  - right. destruct chatId as [id |], config as [value |]; cbn in Hpresent;
      try discriminate Hpresent;
      try (rewrite andb_false_r in Hpresent; discriminate Hpresent).
    apply andb_prop in Hpresent. destruct Hpresent as [Hid Hvalue].
    apply negb_true_iff in Hid.
    do 4 eexists. do 4 (split; [reflexivity || assumption |]).
    apply config_post_accepted; assumption.
  - left. split; [reflexivity |]. apply config_post_rejected; assumption.
Qed.

Lemma config_post_each_app earlier later configurations tr :
  config_post_each (earlier ++ later) configurations tr
  = match config_post_each earlier configurations tr with
    | (Ok reached, tr') => config_post_each later reached tr'
    | (Throw e, tr') => (Throw e, tr')
    end.
Proof.
  revert configurations tr.
  induction earlier as [| [chatId config] rest IH]; intros configurations tr; cbn.
  - reflexivity.
  - unfold bind.
    destruct (config_post configurations chatId config tr) as [[answered | e] tr'];
      [apply IH | reflexivity].
Qed.

Lemma config_post_each_returns requests :
  forall configurations tr,
  exists final tr', config_post_each requests configurations tr = (Ok final, tr').
Proof.
  induction requests as [| [chatId config] rest IH]; intros configurations tr; cbn.
  - do 2 eexists. reflexivity.
  - unfold bind.
    destruct (config_post_cases configurations chatId config tr)
      as [[_ ->] | (id & value & response & event & _ & _ & _ & _ & ->)]; apply IH.
Qed.

(** Posts for other chatIds leave what is read under a chatId as it was. *)
Lemma config_post_each_frame requests chatId :
  ~ In (Some chatId) (map fst requests) ->
  ~ In (Some "__proto__") (map fst requests) ->
  forall configurations tr,
  exists final tr',
    config_post_each requests configurations tr = (Ok final, tr')
    /\ store_get final chatId = store_get configurations chatId.
Proof.
  induction requests as [| [posted config] rest IH]; intros Hother Hproto configurations tr.
  - do 2 eexists. split; reflexivity.
  - cbn in Hother, Hproto. cbn. unfold bind.
    assert (Hrest : ~ In (Some chatId) (map fst rest)) by tauto.
    assert (Hrest' : ~ In (Some "__proto__") (map fst rest)) by tauto.
    destruct (config_post_cases configurations posted config tr)
      as [[_ ->] | (id & value & response & event & -> & -> & _ & _ & ->)]; cbn.
    + apply IH; assumption.
    + destruct (IH Hrest Hrest' (store_set configurations id value)
                   (tr ++ [Broadcast event])) as (final & tr' & Hrun & Hget).
      exists final, tr'. split; [assumption |].
      rewrite Hget. apply store_get_set_other.
      * intros ->. tauto.
      * intros ->. tauto.
Qed.

(** X10.  [POST /config] with both fields stores the configuration under the
    chatId, announces it once, with the chatId and the configuration, and
    answers with the configuration as it reads it back from the store; a
    [GET /config] for that chatId then answers with it. *)
Theorem config_post_stores_and_announces configurations chatId config tr :
  falsy chatId = false ->
  chatId <> "__proto__" ->
  json_truthy config = true ->
  config_post configurations (Some chatId) (Some config) tr
  = (Ok (mkResponse 200
           [("message", JStr "Configuration has been successfully saved!");
            ("data", config)],
         store_set configurations chatId config),
     tr ++ [Broadcast [("type", JStr "configUpdated");
                       ("chatId", JStr chatId);
                       ("config", config)]])
  /\ config_get (store_set configurations chatId config) (Some chatId)
     = mkResponse 200 [("message", JStr "Configuration retrieved successfully!");
                       ("data", config)].
Proof.
  intros Hc Hproto Hv. split.
  - rewrite (config_post_accepted configurations chatId config tr Hc Hv).
    rewrite (store_get_set_same configurations chatId config Hproto). reflexivity.
  - unfold config_get. rewrite Hc.
    rewrite (store_get_set_same configurations chatId config Hproto). cbn.
    rewrite Hv. reflexivity.
Qed.

Lemma config_post_stores_and_announces_witness :
  let config := JObj [("model", JStr "gpt"); ("temperature", JNum 1)] in
  config_post empty_store (Some "chat-1") (Some config) []
  = (Ok (mkResponse 200
           [("message", JStr "Configuration has been successfully saved!");
            ("data", config)],
         {| own := [("chat-1", config)]; prototype := None |}),
     [Broadcast [("type", JStr "configUpdated");
                 ("chatId", JStr "chat-1");
                 ("config", config)]])
  /\ config_get {| own := [("chat-1", config)]; prototype := None |} (Some "chat-1")
     = mkResponse 200 [("message", JStr "Configuration retrieved successfully!");
                       ("data", config)].
Proof.
  intros config.
  apply (config_post_stores_and_announces empty_store "chat-1" config []);
    [reflexivity | discriminate | reflexivity].
Defined.

(** X11.  Last write wins.  Whatever was posted before, once a configuration is
    accepted for a chatId and no later request names that chatId (or
    [__proto__]), [GET /config] answers with that configuration. *)
Theorem config_last_write_wins earlier later configurations chatId config :
  falsy chatId = false ->
  chatId <> "__proto__" ->
  json_truthy config = true ->
  ~ In (Some chatId) (map fst later) ->
  ~ In (Some "__proto__") (map fst later) ->
  exists final tr,
    config_post_each (earlier ++ (Some chatId, Some config) :: later) configurations []
    = (Ok final, tr)
    /\ config_get final (Some chatId)
       = mkResponse 200 [("message", JStr "Configuration retrieved successfully!");
                         ("data", config)].
Proof.
  intros Hc Hproto Hv Hlater Hlater'.
  destruct (config_post_each_returns earlier configurations []) as (reached & tr1 & Hearlier).
  rewrite config_post_each_app, Hearlier. cbn [config_post_each]. unfold bind.
  rewrite (config_post_accepted reached chatId config tr1 Hc Hv). cbn [snd].
  destruct (config_post_each_frame later chatId Hlater Hlater'
              (store_set reached chatId config)
              (tr1 ++ [Broadcast [("type", JStr "configUpdated");
                                  ("chatId", JStr chatId);
                                  ("config", config)]]))
    as (final & tr & Hrun & Hget).
  exists final, tr. split; [assumption |].
  unfold config_get. rewrite Hc, Hget.
  rewrite (store_get_set_same reached chatId config Hproto). cbn.
  rewrite Hv. reflexivity.
Qed.

Lemma config_last_write_wins_witness :
  exists final tr,
    config_post_each
      ([(Some "chat-1", Some (JStr "first"))]
         ++ (Some "chat-1", Some (JStr "second"))
         :: [(Some "chat-2", Some (JNum 7)); (None, Some (JStr "lost"))])
      empty_store []
    = (Ok final, tr)
    /\ config_get final (Some "chat-1")
       = mkResponse 200 [("message", JStr "Configuration retrieved successfully!");
                         ("data", JStr "second")].
Proof.
  apply (config_last_write_wins
           [(Some "chat-1", Some (JStr "first"))]
           [(Some "chat-2", Some (JNum 7)); (None, Some (JStr "lost"))]
           empty_store "chat-1" (JStr "second"));
    try reflexivity; try discriminate;
    cbn; intuition discriminate.
Defined.

(** X12.  An accepted post changes what [GET /config] answers for its own chatId
    only: for every other chatId the answer is the one from before. *)
Theorem config_post_frame configurations chatId config tr response stored tr' other :
  chatId <> "__proto__" ->
  config_post configurations (Some chatId) (Some config) tr = (Ok (response, stored), tr') ->
  other <> chatId ->
  config_get stored (Some other) = config_get configurations (Some other).
Proof.
  intros Hproto Hrun Hother.
  destruct (config_post_cases configurations (Some chatId) (Some config) tr)
    as [[_ Hrejected] | (id & value & response' & event & [= <-] & [= <-] & _ & _ & Haccepted)].
  - rewrite Hrejected in Hrun. injection Hrun as _ <- _. reflexivity.
  - rewrite Haccepted in Hrun. injection Hrun as _ <- _.
    unfold config_get.
    rewrite (store_get_set_other configurations chatId config other Hproto Hother).
    reflexivity.
Qed.

Lemma config_post_frame_witness :
  config_get {| own := [("chat-1", JStr "kept"); ("chat-2", JNum 7)]; prototype := None |}
             (Some "chat-1")
  = config_get {| own := [("chat-1", JStr "kept")]; prototype := None |} (Some "chat-1").
Proof.
  apply (config_post_frame
           {| own := [("chat-1", JStr "kept")]; prototype := None |}
           "chat-2" (JNum 7) []
           (mkResponse 200
              [("message", JStr "Configuration has been successfully saved!");
               ("data", JNum 7)])
           {| own := [("chat-1", JStr "kept"); ("chat-2", JNum 7)]; prototype := None |}
           [Broadcast [("type", JStr "configUpdated");
                       ("chatId", JStr "chat-2");
                       ("config", JNum 7)]]
           "chat-1");
    [discriminate | reflexivity | discriminate].
Defined.

(** X13.  [POST /config] without a chatId, or without a configuration (missing,
    or a falsy value such as [false], [0] or the empty string), answers
    HTTP 400, stores nothing and announces nothing. *)
Theorem config_post_rejects_incomplete configurations chatId config tr :
  truthy chatId && json_present config = false ->
  config_post configurations chatId config tr
  = (Ok (mkResponse 400 [("message", JStr "chatId and config are required.")],
         configurations),
     tr).
Proof.
  apply config_post_rejected.
Qed.

Lemma config_post_rejects_incomplete_witness :
  config_post empty_store (Some "chat-1") (Some (JNum 0)) []
  = (Ok (mkResponse 400 [("message", JStr "chatId and config are required.")],
         empty_store),
     []).
Proof.
  apply (config_post_rejects_incomplete empty_store (Some "chat-1") (Some (JNum 0)) []).
  reflexivity.
Defined.

(** X14.  Starting from the empty store, [GET /config] answers HTTP 404, naming
    the chatId, for every chatId that no request has posted, as long as the
    chatId is not a name that objects inherit and no request posted under
    [__proto__]; without a chatId it answers HTTP 400. *)
Theorem config_never_posted_not_found requests chatId :
  falsy chatId = false ->
  inherited chatId = false ->
  ~ In (Some chatId) (map fst requests) ->
  ~ In (Some "__proto__") (map fst requests) ->
  exists final tr,
    config_post_each requests empty_store [] = (Ok final, tr)
    /\ config_get final (Some chatId)
       = mkResponse 404
           [("message", JStr ("No configuration found for chatId: " ++ chatId))]
    /\ config_get final None = mkResponse 400 [("message", JStr "chatId is required.")]
    /\ config_get final (Some "") = mkResponse 400 [("message", JStr "chatId is required.")].
Proof.
  intros Hc Hinherited Hother Hproto.
  destruct (config_post_each_frame requests chatId Hother Hproto empty_store [])
    as (final & tr & Hrun & Hget).
  exists final, tr. split; [assumption |].
  split; [| split; reflexivity].
  unfold config_get. rewrite Hc, Hget.
  unfold store_get, Object_prototype_get, empty_store. cbn [own prototype get_field].
  destruct (String.eqb_spec chatId "__proto__") as [-> | _]; [discriminate Hinherited |].
  rewrite Hinherited. reflexivity.
Qed.

Lemma config_never_posted_not_found_witness :
  exists final tr,
    config_post_each [(Some "chat-1", Some (JStr "first"))] empty_store [] = (Ok final, tr)
    /\ config_get final (Some "chat-2")
       = mkResponse 404 [("message", JStr "No configuration found for chatId: chat-2")]
    /\ config_get final None = mkResponse 400 [("message", JStr "chatId is required.")]
    /\ config_get final (Some "") = mkResponse 400 [("message", JStr "chatId is required.")].
Proof.
  apply (config_never_posted_not_found [(Some "chat-1", Some (JStr "first"))] "chat-2");
    try reflexivity; cbn; intuition discriminate.
Defined.





(** ** The push channel *)

Lemma broadcast_to_open clients data id d :
  In (id, d) (broadcast_to clients data)
  <-> d = data /\ exists client, In client clients /\ client_id client = id
                                 /\ readyState client = OPEN.
Proof.
  unfold broadcast_to. rewrite in_map_iff. split.
  - intros (client & [= <- <-] & Hin). apply filter_In in Hin. destruct Hin as [Hin Hopen].
    split; [reflexivity |]. exists client. repeat split; try assumption.
    unfold is_open in Hopen. destruct (readyState client); try discriminate. reflexivity.
  - intros (-> & client & Hin & <- & Hopen).
    exists client. split; [reflexivity |]. apply filter_In. split; [assumption |].
    unfold is_open. rewrite Hopen. reflexivity.
Qed.

Lemma broadcast_to_bound clients data :
  (List.length (broadcast_to clients data) <= List.length clients)%nat.
Proof.
  unfold broadcast_to. rewrite length_map.
  induction clients as [| client rest IH]; cbn; [lia |].
  destruct (is_open client); cbn; lia.
Qed.

Lemma broadcast_to_once clients data client :
  NoDup (map client_id clients) ->
  In client clients ->
  readyState client = OPEN ->
  count_occ Nat.eq_dec (map fst (broadcast_to clients data)) (client_id client) = 1%nat.
Proof.
  intros Hdistinct Hin Hopen. unfold broadcast_to. rewrite map_map. cbn [fst].
  induction clients as [| first rest IH]; [contradiction |].
  cbn in Hdistinct. inversion Hdistinct as [| ? ? Hfirst Hrest]; subst.
  assert (Hopen' : is_open client = true) by (unfold is_open; rewrite Hopen; reflexivity).
  destruct Hin as [-> | Hin].
  - cbn [filter]. rewrite Hopen'. cbn [map].
    rewrite count_occ_cons_eq by reflexivity.
    f_equal. apply count_occ_not_In. intros Hrecipient.
    apply Hfirst. apply in_map_iff in Hrecipient.
    destruct Hrecipient as (other & Hid & Hother). apply filter_In in Hother.
    apply in_map_iff. exists other. tauto.
  - cbn [filter]. destruct (is_open first); [| apply IH; assumption].
    cbn [map]. rewrite count_occ_cons_neq; [apply IH; assumption |].
    intros Hsame. apply Hfirst. rewrite Hsame. apply in_map. assumption.
Qed.

(** X17.  [POST /webhook] answers HTTP 200 for any payload and relays it, as the
    data of one [webhookReceived] event: every message that goes out
    carries that event, it goes to a client that is [OPEN], each client
    that is [OPEN] gets it exactly once, and the messages are never more
    than the clients connected. *)
Theorem webhook_relays_to_open_clients clients payload :
  NoDup (map client_id clients) ->
  let run := webhook payload [] in
  let event := [("type", JStr "webhookReceived"); ("data", payload)] in
  fst run = Ok (mkResponse 200 [("message", JStr "Webhook processed and broadcasted")])
  /\ snd run = [Broadcast event]
  /\ (forall id d,
         In (id, d) (sent_to clients (snd run)) ->
         d = event /\ exists client, In client clients /\ client_id client = id
                                     /\ readyState client = OPEN)
  /\ (forall client,
         In client clients ->
         readyState client = OPEN ->
         count_occ Nat.eq_dec (map fst (sent_to clients (snd run))) (client_id client)
         = 1%nat)
  /\ (List.length (sent_to clients (snd run)) <= List.length clients)%nat.
Proof.
  intros Hdistinct run event.
  assert (Hsent : sent_to clients (snd run) = broadcast_to clients event).
  { cbn. apply app_nil_r. }
  split; [reflexivity | split; [reflexivity |]].
  rewrite Hsent. split; [| split].
  - intros id d Hin. apply broadcast_to_open. assumption.
  - intros client Hin Hopen. apply broadcast_to_once; assumption.
  - apply broadcast_to_bound.
Qed.

Lemma webhook_relays_to_open_clients_witness :
  let clients := [mkClient 1 OPEN; mkClient 2 CLOSING; mkClient 3 OPEN] in
  let event := [("type", JStr "webhookReceived"); ("data", JObj [("id", JNum 42)])] in
  sent_to clients (snd (webhook (JObj [("id", JNum 42)]) [])) = [(1%nat, event); (3%nat, event)]
  /\ count_occ Nat.eq_dec
               (map fst (sent_to clients (snd (webhook (JObj [("id", JNum 42)]) []))))
               3%nat
     = 1%nat.
Proof.
  intros clients event.
  assert (Hdistinct : NoDup (map client_id clients)).
  { repeat constructor; cbn; intuition discriminate. }
  destruct (webhook_relays_to_open_clients clients (JObj [("id", JNum 42)]) Hdistinct)
    as (_ & _ & _ & Honce & _).
  split; [reflexivity |].
  exact (Honce (mkClient 3 OPEN) ltac:(cbn; tauto) eq_refl).
Defined.

(** ** The health check *)

(** X18.  [GET /health] answers HTTP 200 with the number of connected clients,
    open or not, and with a funding flag that agrees with the two funding
    operations: it reads "not configured" exactly when the status
    aggregation answers [{configured: false}], and exactly when a fund call
    that passes its validation and its lookup is rejected with "funding
    service not configured". *)
Theorem health_agrees_with_funding
  E registry envKey clients address chainId networkConfig :
  falsy address = false ->
  falsy chainId = false ->
  isAddress E address = true ->
  get_config registry chainId = Some networkConfig ->
  exists funding,
    health clients envKey
    = mkResponse 200
        [("status", JStr "ok");
         ("services",
          JObj [("websocket",
                 JStr (NilZero.string_of_uint (Nat.to_uint (List.length clients))
                       ++ " clients connected"));
                ("funding", JStr funding)])]
    /\ (funding = "configured" \/ funding = "not configured")
    /\ (funding = "not configured"
        <-> funding_status E registry envKey [] = (Ok not_configured, []))
    /\ (funding = "not configured"
        <-> fst (fund_address E registry envKey
                              (mkRequest (Some address) (Some chainId)) [])
            = Ok (mkResponse 500
                    [("error",
                      JStr "Funding service not configured. Please contact administrator.")])).
Proof.
  intros Ha Hc Hv Hcfg. unfold health.
  destruct (truthy envKey) eqn:Hkey.
  - exists "configured". split; [reflexivity |]. split; [left; reflexivity |].
    destruct envKey as [key |]; [| discriminate Hkey]. cbn in Hkey.
    apply negb_true_iff in Hkey.
    split; split; try discriminate; intros Hrun; exfalso; revert Hrun.
    + unfold funding_status, funding_status_try, try_catch, bind, pure_call, json, ret.
      rewrite Hkey.
      destruct (Wallet E key) as [funderAddress | e]; [| discriminate].
      destruct (check_networks_returns E funderAddress registry [] [])
        as (balances & -> & _). discriminate.
    + unfold fund_address.
      rewrite (fund_reaches_transfer E registry address chainId key networkConfig
                 Ha Hc Hv Hcfg Hkey).
      unfold fund_transfer, fund_address_catch, provider_getBalance,
        wallet_sendTransaction, tx_wait, broadcast, json, try_catch, bind, ret,
        pure_call, outbound; cbn.
      repeat (next_outcome; cbn); discriminate.
  - exists "not configured". split; [reflexivity |]. split; [right; reflexivity |].
    split; split; try reflexivity; intros _.
    + apply funding_status_not_configured; assumption.
    + rewrite (fund_not_configured E registry envKey address chainId networkConfig
                 Ha Hc Hv Hcfg Hkey).
      reflexivity.
Qed.

Lemma health_agrees_with_funding_witness :
  exists funding,
    health [mkClient 1 OPEN; mkClient 2 CLOSING] None
    = mkResponse 200
        [("status", JStr "ok");
         ("services",
          JObj [("websocket", JStr "2 clients connected");
                ("funding", JStr funding)])]
    /\ (funding = "configured" \/ funding = "not configured")
    /\ (funding = "not configured"
        <-> funding_status (Scenario.funded_ledger (10 ^ 18) 0) NETWORK_CONFIGS None []
            = (Ok not_configured, []))
    /\ (funding = "not configured"
        <-> fst (fund_address (Scenario.funded_ledger (10 ^ 18) 0) NETWORK_CONFIGS None
                              (Scenario.request Scenario.target "97") [])
            = Ok (mkResponse 500
                    [("error",
                      JStr "Funding service not configured. Please contact administrator.")])).
Proof.
  exact (health_agrees_with_funding
           (Scenario.funded_ledger (10 ^ 18) 0) NETWORK_CONFIGS None
           [mkClient 1 OPEN; mkClient 2 CLOSING] Scenario.target "97"
           (OwnConfig {| rpcUrl := "https://data-seed-prebsc-1-s1.binance.org:8545";
                         fundingAmount := "0.0025";
                         name := "BSC Testnet" |})
           eq_refl eq_refl eq_refl eq_refl).
Defined.
